(** * WikidataChat: the retrieval-augmented generation pipeline

    A shallow embedding of [src/wikidatachat/rag.py]: the class
    [RetreivalAugmentedGenerationPipeline], its constructor and its method
    [process_query].  The method is a sequence of calls to external
    collaborators (a hosted vector store, an embedder, the Wikidata
    statement fetcher, an in-memory retriever, a prompt builder, a language
    model, an answer builder) with one [try]/[except] block and one
    conditional.  The collaborators are the fields of a record [World]; the
    method runs in a state-and-exception monad whose state holds the
    pipeline object, the sequence of collaborator calls made so far, the
    logger's records and what was printed. *)

From Stdlib Require Import ZArith.
From Stdlib Require Import Floats.PrimFloat.
From stdpp Require Import base option list strings gmap.

(** ** Python values and exceptions *)

(** The values that occur in [wikidata_kwargs]. *)
Inductive pyvalue : Type :=
| PyInt (n : Z)
| PyBool (b : bool)
| PyStr (s : string).

(** Exceptions.  [KeyboardInterrupt] and [SystemExit] derive from
    [BaseException] only; every other constructor is a subclass of
    [Exception], which is what [except Exception] catches. *)
Inductive exn : Type :=
| KeyError (key : string)
| IndexError
| TypeError (msg : string)
| ServiceError (msg : string)
| KeyboardInterrupt
| SystemExit.

Definition is_Exception (e : exn) : bool :=
  match e with
  | KeyboardInterrupt | SystemExit => false
  | _ => true
  end.

(** The outcome of a call: a value, or a raised exception. *)
Inductive result (A : Type) : Type :=
| Ok (a : A)
| Raise (e : exn).
Arguments Ok {A} a.
Arguments Raise {A} e.

Definition result_to_option {A} (r : result A) : option A :=
  match r with
  | Ok a => Some a
  | Raise _ => None
  end.

Definition result_bind {A B} (r : result A) (k : A -> result B) : result B :=
  match r with
  | Ok a => k a
  | Raise e => Raise e
  end.

(** A list comprehension whose element expression may raise: elements are
    built left to right and the first exception aborts the whole list. *)
Fixpoint comprehension {A B} (f : A -> result B) (l : list A) : result (list B) :=
  match l with
  | [] => Ok []
  | a :: l' =>
      result_bind (f a) (fun b =>
      result_bind (comprehension f l') (fun bs => Ok (b :: bs)))
  end.

(** [d[key]] on a dict. *)
Definition getitem {V} (d : gmap string V) (key : string) : result V :=
  match d !! key with
  | Some v => Ok v
  | None => Raise (KeyError key)
  end.

(** [l[0]] on a list. *)
Definition first {A} (l : list A) : result A :=
  match l with
  | a :: _ => Ok a
  | [] => Raise IndexError
  end.

(** [l[:n]]: the first [n] elements; for a negative [n], all but the last
    [-n]. *)
Definition slice_to {A} (n : Z) (l : list A) : list A :=
  if (n <? 0)%Z then take (length l - Z.to_nat (- n)) l
  else take (Z.to_nat n) l.

(** ** Data *)

(** A LangChain document, as the vector store returns it. *)
Record LCDocument : Type := {
  page_content : string;
  metadata : gmap string string
}.

(** A Haystack [Document]; the fields the pipeline sets or reads. *)
Record Document : Type := {
  content : option string;
  score : option float;
  meta : gmap string string;
  embedding : option (list float)
}.

(** [Document(content=c)]: the other fields take their defaults. *)
Definition Document_of_content (c : string) : Document :=
  {| content := Some c; score := None; meta := ∅; embedding := None |}.

(** A Wikidata statement as the fetcher returns it: a dict. *)
Abbreviation statement := (gmap string string).

Inductive ChatRole : Type := system | user | assistant.

Record ChatMessage : Type := {
  role : ChatRole;
  text : string;
  message_meta : gmap string string
}.

Definition from_system (s : string) : ChatMessage :=
  {| role := system; text := s; message_meta := ∅ |}.

Definition from_user (s : string) : ChatMessage :=
  {| role := user; text := s; message_meta := ∅ |}.

(** A Haystack [GeneratedAnswer]. *)
Record GeneratedAnswer : Type := {
  data : string;
  answer_query : string;
  documents : list Document;
  answer_meta : gmap string string
}.

(** A Haystack [PromptBuilder], identified by its template. *)
Record PromptBuilder : Type := { template : string }.

(** ** The pipeline object *)

Record Embedder : Type := {
  embedder_model : string;
  embedder_device : string
}.

Record AstraDBVectorStore : Type := {
  collection_name : string;
  provider : string;
  model_name : string;
  token : option string;
  api_endpoint : option string;
  namespace : option string
}.

Record Logger : Type := { logger_name : string }.

Record RetreivalAugmentedGenerationPipeline : Type := {
  logger : Logger;
  device : string;
  embedding_model : string;
  embedder : Embedder;
  graph_store : AstraDBVectorStore
}.

Definition set_logger (v : Logger) (p : RetreivalAugmentedGenerationPipeline) :=
  {| logger := v; device := device p; embedding_model := embedding_model p;
     embedder := embedder p; graph_store := graph_store p |}.

Definition set_device (v : string) (p : RetreivalAugmentedGenerationPipeline) :=
  {| logger := logger p; device := v; embedding_model := embedding_model p;
     embedder := embedder p; graph_store := graph_store p |}.

Definition set_embedding_model (v : string)
    (p : RetreivalAugmentedGenerationPipeline) :=
  {| logger := logger p; device := device p; embedding_model := v;
     embedder := embedder p; graph_store := graph_store p |}.

Definition set_embedder (v : Embedder)
    (p : RetreivalAugmentedGenerationPipeline) :=
  {| logger := logger p; device := device p;
     embedding_model := embedding_model p; embedder := v;
     graph_store := graph_store p |}.

Definition set_graph_store (v : AstraDBVectorStore)
    (p : RetreivalAugmentedGenerationPipeline) :=
  {| logger := logger p; device := device p;
     embedding_model := embedding_model p; embedder := embedder p;
     graph_store := v |}.

(** The in-memory document store and the retriever over it that
    [setup_document_stream_from_list] returns. *)
Record DocumentStore : Type := {
  stored : list Document;
  similarity : string
}.

Record Retriever : Type := { document_store : DocumentStore }.

(** ** Module-level configuration read from the environment *)

Record Environment : Type := {
  SERAPI_API_KEY : option string;
  EMBEDDING_MODEL_var : option string;
  ASTRA_DB_APPLICATION_TOKEN : option string;
  ASTRA_DB_API_ENDPOINT : option string;
  ASTRA_DB_KEYSPACE : option string
}.

Definition EMBEDDING_MODEL (env : Environment) : string :=
  default "svalabs/german-gpl-adapted-covid" (EMBEDDING_MODEL_var env).

(** ** Collaborators *)

(** What the external services and library components answer.  Each field
    stands for one call the pipeline makes; a [Raise] is the call raising.
    [system_prompts] and [user_prompt_builders] are the two tables of
    [prompt.py], [llm_run] is the [run] method of the generator configured
    in [llm_config.py]. *)
Record World : Type := {
  environment : Environment;
  cpu_count : Z;
  similarity_search_with_relevance_scores :
    AstraDBVectorStore -> string -> Z -> result (list (LCDocument * float));
  embedder_run : Embedder -> list Document -> result (list Document);
  get_wikidata_statements_from_query :
    string -> string -> option string -> gmap string pyvalue ->
    result (list statement);
  documents_from_dicts :
    list statement -> option string -> list string -> result (list Document);
  retriever_run : Retriever -> list float -> Z -> result (list Document);
  system_prompts : gmap string string;
  user_prompt_builders : gmap string PromptBuilder;
  prompt_builder_run :
    PromptBuilder -> string -> list Document -> result string;
  llm_run : list ChatMessage -> result (list ChatMessage);
  answer_builder_run :
    string -> list ChatMessage -> list (gmap string string) ->
    list Document -> result (list GeneratedAnswer)
}.

(** ** Observable effects *)

(** One constructor per collaborator call, with the arguments passed. *)
Inductive event : Type :=
| SimilaritySearch (store : AstraDBVectorStore) (query : string) (k : Z)
| Embed (e : Embedder) (docs : list Document)
| FetchStatements (question lang : string) (key : option string)
    (kwargs : gmap string pyvalue)
| Retrieve (r : Retriever) (query_embedding : list float) (top_k : Z)
| BuildPrompt (b : PromptBuilder) (question : string) (docs : list Document)
| Generate (messages : list ChatMessage)
| BuildAnswer (query : string) (replies : list ChatMessage)
    (metas : list (gmap string string)) (docs : list Document).

(** What [self.logger.debug] is given. *)
Inductive log_message : Type :=
| LogStatements (l : list statement)
| LogStatement (s : statement)
| LogText (s : string)
| LogDocument (d : Document)
| LogPrompt (p : string)
| LogResponse (replies : list ChatMessage)
| LogAnswers (answers : list GeneratedAnswer).

Record state : Type := {
  self : RetreivalAugmentedGenerationPipeline;
  calls : list event;
  log : list (Logger * log_message);
  stdout : list exn
}.

(** ** The monad *)

Definition M (A : Type) : Type := state -> result A * state.

Definition ret {A} (a : A) : M A := fun st => (Ok a, st).

Definition bind {A B} (m : M A) (k : A -> M B) : M B :=
  fun st =>
    match m st with
    | (Ok a, st') => k a st'
    | (Raise e, st') => (Raise e, st')
    end.

Declare Scope py_scope.
Delimit Scope py_scope with py.
Notation "x <- m ;; k" := (bind m (fun x => k))
  (at level 20, m at level 99, k at level 200, only parsing) : py_scope.
Notation "m ;; k" := (bind m (fun _ => k))
  (at level 100, k at level 200, only parsing, right associativity) : py_scope.
Local Open Scope py_scope.

Definition lift {A} (r : result A) : M A := fun st => (r, st).

(** [try: body / except Exception as e: handler e]. *)
Definition try_except {A} (body : M A) (handler : exn -> M A) : M A :=
  fun st =>
    match body st with
    | (Ok a, st') => (Ok a, st')
    | (Raise e, st') =>
        if is_Exception e then handler e st' else (Raise e, st')
    end.

(** Reading an attribute of [self]. *)
Definition getattr {A} (f : RetreivalAugmentedGenerationPipeline -> A) : M A :=
  fun st => (Ok (f (self st)), st).

(** Assigning an attribute of [self]; [update] is the field update. *)
Definition setattr
    (update : RetreivalAugmentedGenerationPipeline ->
              RetreivalAugmentedGenerationPipeline) : M unit :=
  fun st =>
    (Ok tt, {| self := update (self st); calls := calls st; log := log st;
               stdout := stdout st |}).

Definition add_call (ev : event) (st : state) : state :=
  {| self := self st; calls := calls st ++ [ev]; log := log st;
     stdout := stdout st |}.

Definition add_log (msg : log_message) (st : state) : state :=
  {| self := self st; calls := calls st;
     log := log st ++ [(logger (self st), msg)]; stdout := stdout st |}.

Definition add_print (e : exn) (st : state) : state :=
  {| self := self st; calls := calls st; log := log st;
     stdout := stdout st ++ [e] |}.

Definition add_logs (msgs : list log_message) (st : state) : state :=
  {| self := self st; calls := calls st;
     log := log st ++ map (fun msg => (logger (self st), msg)) msgs;
     stdout := stdout st |}.

(** A collaborator call: the call is recorded, then it answers or raises. *)
Definition call {A} (ev : event) (answer : result A) : M A :=
  fun st => (answer, add_call ev st).

(** [self.logger.debug(msg)]. *)
Definition debug (msg : log_message) : M unit :=
  fun st => (Ok tt, add_log msg st).

(** [print(e)]. *)
Definition print (e : exn) : M unit :=
  fun st => (Ok tt, add_print e st).

(** [for x in l: body x]. *)
Fixpoint for_each {A} (l : list A) (body : A -> M unit) : M unit :=
  match l with
  | [] => ret tt
  | a :: l' => body a ;; for_each l' body
  end.

(** ** The pipeline *)

Definition double_quote : string := String (Ascii.ascii_of_nat 34) EmptyString.

(** Default values of the optional parameters of [process_query]. *)
Definition default_top_k : Z := 10.
Definition default_lang : string := "de".
Definition default_content_key : option string := None.
Definition default_meta_keys : list string := [].
Definition default_embedding_similarity_function : string := "cosine".

Section Pipeline.

Variable w : World.

(** Modelled from the spec: [get_logger] ([logger.py] is not among the
    sources; the spec calls it logging setup).  It returns the logger of
    the given name. *)
Definition get_logger (name : string) : Logger := {| logger_name := name |}.

(** Modelled from the spec: [make_embedder] ([vector_store_interface.py]
    is not among the sources) builds the embedder of the "configurable
    embedding model": the embedder of the given model on the given
    device. *)
Definition make_embedder (embedding_model device : string) : Embedder :=
  {| embedder_model := embedding_model; embedder_device := device |}.

(** [__init__(self, embedding_model=EMBEDDING_MODEL, device='cpu')]:
    five assignments to attributes of [self].  Building the embedder and
    the vector store client is taken to succeed. *)
Definition __init__ (embedding_model_arg device_arg : option string) : M unit :=
  let embedding_model_arg :=
    default (EMBEDDING_MODEL (environment w)) embedding_model_arg in
  let device_arg := default "cpu" device_arg in
  setattr (set_logger (get_logger "wikidatachat.rag")) ;;
  setattr (set_device device_arg) ;;
  setattr (set_embedding_model embedding_model_arg) ;;
  model <- getattr embedding_model ;;
  dev <- getattr device ;;
  setattr (set_embedder (make_embedder model dev)) ;;
  setattr (set_graph_store
             {| collection_name := "wikidata";
                provider := "nvidia";
                model_name := "NV-Embed-QA";
                token := ASTRA_DB_APPLICATION_TOKEN (environment w);
                api_endpoint := ASTRA_DB_API_ENDPOINT (environment w);
                namespace := ASTRA_DB_KEYSPACE (environment w) |}).

(** The pipeline object a construction leaves in [self]. *)
Definition init (embedding_model_arg device_arg : option string)
  : RetreivalAugmentedGenerationPipeline :=
  let model := default (EMBEDDING_MODEL (environment w)) embedding_model_arg in
  let dev := default "cpu" device_arg in
  {| logger := get_logger "wikidatachat.rag";
     device := dev;
     embedding_model := model;
     embedder := make_embedder model dev;
     graph_store :=
       {| collection_name := "wikidata";
          provider := "nvidia";
          model_name := "NV-Embed-QA";
          token := ASTRA_DB_APPLICATION_TOKEN (environment w);
          api_endpoint := ASTRA_DB_API_ENDPOINT (environment w);
          namespace := ASTRA_DB_KEYSPACE (environment w) |} |}.

(** The element expression of the list comprehension of lines 102-108:
    [Document(content=r[0].page_content, score=r[1],
              meta={'qid': r[0].metadata['QID']})]. *)
Definition to_document (r : LCDocument * float) : result Document :=
  result_bind (getitem (metadata r.1) "QID") (fun qid =>
  Ok {| content := Some (page_content r.1);
        score := Some r.2;
        meta := {[ "qid" := qid ]};
        embedding := None |}).

(** Lines 98-110: the [try] block and its handler.  The value is that of
    [retriever_results] after the block. *)
Definition primary_retrieval (query : string) (top_k : Z) : M (list Document) :=
  try_except
    (store <- getattr graph_store ;;
     results <- call (SimilaritySearch store query top_k)
                  (similarity_search_with_relevance_scores w store query top_k) ;;
     lift (comprehension to_document results))
    (fun e => print e ;; ret []).

(** Lines 116-123. *)
Definition default_wikidata_kwargs : gmap string pyvalue :=
  {[ "timeout" := PyInt 10;
     "n_cores" := PyInt (cpu_count w);
     "verbose" := PyBool false;
     "api_url" := PyStr "https://www.wikidata.org/w";
     "wikidata_base" := PyStr (double_quote +:+ "wikidata.org" +:+ double_quote);
     "return_list" := PyBool true ]}.

(** Lines 135-140: [get_wikidata_statements_from_query(query, lang=lang,
    serapi_api_key=SERAPI_API_KEY, **wikidata_kwargs)].  A key of
    [wikidata_kwargs] that names an argument already given makes the call
    itself a [TypeError]; the first parameter is named [question]
    ([run.py] passes it by keyword). *)
Definition fetch_statements (query lang : string)
    (wikidata_kwargs : gmap string pyvalue) : M (list statement) :=
  match filter (fun k => bool_decide (is_Some (wikidata_kwargs !! k)))
               ["question"; "lang"; "serapi_api_key"] with
  | k :: _ =>
      lift (Raise (TypeError ("got multiple values for argument " +:+ k)))
  | [] =>
      let key := SERAPI_API_KEY (environment w) in
      call (FetchStatements query lang key wikidata_kwargs)
        (get_wikidata_statements_from_query w query lang key wikidata_kwargs)
  end.

(** Modelled from the spec: [setup_document_stream_from_list]
    ([vector_store_interface.py] is not among the sources).  The spec's
    fallback retriever "embeds the returned statements ... with a
    configurable embedding model, and performs in-memory nearest-neighbor
    retrieval over the freshly embedded statements": the statements are
    turned into documents, the given embedder embeds them, and the result
    is an in-memory store of the embedded documents with a retriever over
    it. *)
Definition setup_document_stream_from_list (dict_list : list statement)
    (content_key : option string) (meta_keys : list string)
    (embedder : Embedder) (embedding_similarity_function : string)
    (device : string) : M (DocumentStore * Retriever) :=
  docs <- lift (documents_from_dicts w dict_list content_key meta_keys) ;;
  embedded <- call (Embed embedder docs) (embedder_run w embedder docs) ;;
  let store :=
    {| stored := embedded; similarity := embedding_similarity_function |} in
  ret (store, {| document_store := store |}).

(** [list(query_embedding)]: a [TypeError] when the embedding is [None]. *)
Definition to_list (e : option (list float)) : result (list float) :=
  match e with
  | Some l => Ok l
  | None => Raise (TypeError "'NoneType' object is not iterable")
  end.

(** Lines 114-167: the body of [if len(retriever_results) == 0].  The
    value is that of [retriever_results] after the block. *)
Definition fallback_retrieval (query : string) (top_k : Z) (lang : string)
    (content_key : option string) (meta_keys : list string)
    (embedding_similarity_function : string)
    (wikidata_kwargs : option (gmap string pyvalue)) : M (list Document) :=
  let wikidata_kwargs := default default_wikidata_kwargs wikidata_kwargs in
  let query_document := Document_of_content query in
  emb <- getattr embedder ;;
  query_embedded <- call (Embed emb [query_document])
                      (embedder_run w emb [query_document]) ;;
  query_embedded_0 <- lift (first query_embedded) ;;
  let query_embedding := embedding query_embedded_0 in
  wikidata_statements <- fetch_statements query lang wikidata_kwargs ;;
  debug (LogStatements wikidata_statements) ;;
  for_each wikidata_statements (fun wds_ => debug (LogStatement wds_)) ;;
  emb <- getattr embedder ;;
  dev <- getattr device ;;
  sr <- setup_document_stream_from_list wikidata_statements content_key
          meta_keys emb embedding_similarity_function dev ;;
  let retriever := sr.2 in
  query_embedding <- lift (to_list query_embedding) ;;
  call (Retrieve retriever query_embedding top_k)
    (retriever_run w retriever query_embedding top_k).

(** Lines 98-167: both retrieval paths; the value is [retriever_results]
    as line 169 finds it. *)
Definition retrieve (query : string) (top_k : Z) (lang : string)
    (content_key : option string) (meta_keys : list string)
    (embedding_similarity_function : string)
    (wikidata_kwargs : option (gmap string pyvalue)) : M (list Document) :=
  retriever_results <- primary_retrieval query top_k ;;
  if Nat.eqb (length retriever_results) 0 then
    fallback_retrieval query top_k lang content_key meta_keys
      embedding_similarity_function wikidata_kwargs
  else ret retriever_results.

(** Lines 169-221: logging, prompt, generation and answer. *)
Definition answer (query : string) (lang : string)
    (retriever_results : list Document) : M GeneratedAnswer :=
  debug (LogText "retriever results:") ;;
  for_each retriever_results
    (fun retriever_result_ => debug (LogDocument retriever_result_)) ;;
  system_prompt <- lift (getitem (system_prompts w) lang) ;;
  user_prompt_builder <- lift (getitem (user_prompt_builders w) lang) ;;
  prompt <- call (BuildPrompt user_prompt_builder query retriever_results)
              (prompt_builder_run w user_prompt_builder query
                 retriever_results) ;;
  debug (LogPrompt prompt) ;;
  let messages := [from_system system_prompt; from_user prompt] in
  replies <- call (Generate messages) (llm_run w messages) ;;
  debug (LogResponse replies) ;;
  let metas := map message_meta replies in
  answers <- call (BuildAnswer query replies metas retriever_results)
               (answer_builder_run w query replies metas retriever_results) ;;
  debug (LogAnswers answers) ;;
  lift (first answers).

(** [process_query(self, query, top_k=10, lang='de', content_key=None,
    meta_keys=[], embedding_similarity_function="cosine",
    wikidata_kwargs=None)]. *)
Definition process_query (query : string) (top_k : Z) (lang : string)
    (content_key : option string) (meta_keys : list string)
    (embedding_similarity_function : string)
    (wikidata_kwargs : option (gmap string pyvalue)) : M GeneratedAnswer :=
  retriever_results <- retrieve query top_k lang content_key meta_keys
                         embedding_similarity_function wikidata_kwargs ;;
  answer query lang retriever_results.

End Pipeline.

(** ** Observations on a run *)

(** The collaborator calls made between two states of one run. *)
Definition emitted (st st' : state) : list event :=
  drop (length (calls st)) (calls st').

(** The calls only the fallback path makes. *)
Definition is_fallback_call (ev : event) : bool :=
  match ev with
  | Embed _ _ | FetchStatements _ _ _ _ | Retrieve _ _ _ => true
  | _ => false
  end.

Definition fallback_ran (evs : list event) : bool :=
  existsb is_fallback_call evs.

Inductive kind : Type :=
| KSearch | KEmbed | KFetch | KRetrieve | KPrompt | KGenerate | KAnswer.

Definition kind_of (ev : event) : kind :=
  match ev with
  | SimilaritySearch _ _ _ => KSearch
  | Embed _ _ => KEmbed
  | FetchStatements _ _ _ _ => KFetch
  | Retrieve _ _ _ => KRetrieve
  | BuildPrompt _ _ _ => KPrompt
  | Generate _ => KGenerate
  | BuildAnswer _ _ _ _ => KAnswer
  end.

#[global] Instance kind_eq_dec : EqDecision kind.
Proof. solve_decision. Defined.

(** How many calls of a kind a sequence of calls holds. *)
Definition count_kind (c : kind) (evs : list event) : nat :=
  length (filter (fun ev => kind_of ev = c) evs).

(** The documents a call hands to the prompt builder or to the answer
    builder. *)
Definition documents_used (ev : event) : option (list Document) :=
  match ev with
  | BuildPrompt _ _ docs => Some docs
  | BuildAnswer _ _ _ docs => Some docs
  | _ => None
  end.

(** What the [try] block of lines 99-108 computes when nothing is caught:
    the search, then the conversion of its hits. *)
Definition primary_result (w : World) (store : AstraDBVectorStore)
    (query : string) (top_k : Z) : result (list Document) :=
  result_bind (similarity_search_with_relevance_scores w store query top_k)
    (comprehension to_document).

(** What the conversion of lines 102-108 makes of a hit. *)
Definition converted (h : LCDocument * float) (d : Document) : Prop :=
  content d = Some (page_content h.1) /\
  score d = Some h.2 /\
  embedding d = None /\
  exists qid, metadata h.1 !! "QID" = Some qid /\ meta d = {[ "qid" := qid ]}.

(** A computation that leaves [self] as it found it, whatever it returns. *)
Definition keeps_self {A} (m : M A) : Prop :=
  forall st, self (m st).2 = self st.

(** ** Contracts of the library components

    What the pipeline relies on from components it only calls. *)

(** Haystack's [AnswerBuilder] built without patterns, given one [meta] per
    reply: it returns one answer per reply, in order, whose data is the
    reply's text and which carries the query and all the documents. *)
Definition answer_builder_contract (w : World) : Prop :=
  forall query replies docs,
    exists answers,
      answer_builder_run w query replies (map message_meta replies) docs
        = Ok answers /\
      Forall2 (fun r a => data a = text r /\ answer_query a = query /\
                          documents a = docs)
              replies answers.

(** Asked for [k] hits, [k] not negative, the vector store returns at most
    [k]. *)
Definition search_limit_contract (w : World) : Prop :=
  forall store query k hits,
    (0 <= k)%Z ->
    similarity_search_with_relevance_scores w store query k = Ok hits ->
    (Z.of_nat (length hits) <= k)%Z.

(** Asked for [top_k] documents, [top_k] not negative, the in-memory
    retriever returns at most [top_k].  Nothing is asked of it for a
    negative [top_k]: a retriever that slices its ranking with [[:top_k]]
    then returns all documents but the last [-top_k]. *)
Definition retriever_limit_contract (w : World) : Prop :=
  forall r query_embedding top_k docs,
    (0 <= top_k)%Z ->
    retriever_run w r query_embedding top_k = Ok docs ->
    (Z.of_nat (length docs) <= top_k)%Z.

(** ** A concrete world

    A small instance of the collaborators, used to run the pipeline on
    examples.  The vector store knows one entity; the in-memory retriever
    slices the stored documents with [[:top_k]]; the answer builder is
    Haystack's without patterns: one answer per reply, carrying the reply's
    text and all the documents. *)
Module Demo.

Definition adams : LCDocument :=
  {| page_content := "Douglas Adams: occupation: writer";
     metadata := {[ "QID" := "Q42" ]} |}.

Definition untagged : LCDocument :=
  {| page_content := "Douglas Adams: occupation: writer";
     metadata := {[ "lang" := "en" ]} |}.

Definition adams_document : Document :=
  {| content := Some "Douglas Adams: occupation: writer";
     score := Some 0.75%float;
     meta := {[ "qid" := "Q42" ]};
     embedding := None |}.

Definition search (store : AstraDBVectorStore) (query : string) (k : Z)
  : result (list (LCDocument * float)) :=
  if (k <? 0)%Z then Raise (ServiceError "k must not be negative")
  else if String.eqb query "Who is Douglas Adams?" then
    Ok (take (Z.to_nat k) [(adams, 0.75%float)])
  else if String.eqb query "untagged" then
    Ok (take (Z.to_nat k) [(untagged, 0.75%float)])
  else if String.eqb query "offline" then Raise (ServiceError "timeout")
  else if String.eqb query "interrupt" then Raise KeyboardInterrupt
  else Ok [].

Definition embed (e : Embedder) (docs : list Document) : result (list Document) :=
  Ok (map (fun d => {| content := content d; score := score d; meta := meta d;
                       embedding := Some [1%float; 0%float] |}) docs).

Definition einstein : statement :=
  {[ "statement" := "Albert Einstein: instance of: human" ]}.

Definition born : statement :=
  {[ "statement" := "Albert Einstein: place of birth: Ulm" ]}.

Definition einstein_document : Document :=
  {| content := Some "Albert Einstein: instance of: human"; score := None;
     meta := ∅; embedding := None |}.

Definition born_document : Document :=
  {| content := Some "Albert Einstein: place of birth: Ulm"; score := None;
     meta := ∅; embedding := None |}.

Definition einstein_embedded : Document :=
  {| content := Some "Albert Einstein: instance of: human"; score := None;
     meta := ∅; embedding := Some [1%float; 0%float] |}.

Definition born_embedded : Document :=
  {| content := Some "Albert Einstein: place of birth: Ulm"; score := None;
     meta := ∅; embedding := Some [1%float; 0%float] |}.

Definition fetch (question lang : string) (key : option string)
    (kwargs : gmap string pyvalue) : result (list statement) :=
  Ok [einstein; born].

Definition to_documents (l : list statement) (content_key : option string)
    (meta_keys : list string) : result (list Document) :=
  Ok (map (fun s : statement =>
             {| content := s !! "statement"; score := None; meta := ∅;
                embedding := None |}) l).

Definition nearest (r : Retriever) (query_embedding : list float) (top_k : Z)
  : result (list Document) :=
  Ok (slice_to top_k (stored (document_store r))).

Definition render (b : PromptBuilder) (question : string)
    (docs : list Document) : result string :=
  Ok (template b +:+ question).

Definition generate (messages : list ChatMessage) : result (list ChatMessage) :=
  Ok [ {| role := assistant; text := "See the statements."; message_meta := ∅ |} ].

Definition build_answers (query : string) (replies : list ChatMessage)
    (metas : list (gmap string string)) (docs : list Document)
  : result (list GeneratedAnswer) :=
  Ok (map (fun r => {| data := text r; answer_query := query;
                       documents := docs; answer_meta := message_meta r |})
          replies).

Definition world : World :=
  {| environment :=
       {| SERAPI_API_KEY := Some "key"; EMBEDDING_MODEL_var := None;
          ASTRA_DB_APPLICATION_TOKEN := Some "token";
          ASTRA_DB_API_ENDPOINT := Some "endpoint";
          ASTRA_DB_KEYSPACE := None |};
     cpu_count := 4;
     similarity_search_with_relevance_scores := search;
     embedder_run := embed;
     get_wikidata_statements_from_query := fetch;
     documents_from_dicts := to_documents;
     retriever_run := nearest;
     system_prompts := {[ "de" := "Antworte auf Deutsch."; "en" := "Answer in English." ]};
     user_prompt_builders :=
       {[ "de" := {| template := "Frage: " |};
          "en" := {| template := "Question: " |} ]};
     prompt_builder_run := render;
     llm_run := generate;
     answer_builder_run := build_answers |}.

Definition start : state :=
  {| self := init world None None; calls := []; log := []; stdout := [] |}.

(** [process_query] with the defaults for everything but the query, the
    number of documents and the language. *)
Definition ask (query : string) (top_k : Z) (lang : string)
  : result GeneratedAnswer * state :=
  process_query world query top_k lang default_content_key default_meta_keys
    default_embedding_similarity_function None start.

End Demo.

(** ** Further observations *)

(** What a run printed and what it logged, between two of its states. *)
Definition printed (st st' : state) : list exn :=
  drop (length (stdout st)) (stdout st').

Definition logged (st st' : state) : list (Logger * log_message) :=
  drop (length (log st)) (log st').

(** [wikidata_kwargs] as line 139 finds it: the caller's dict, or the
    defaults of lines 116-123 when the caller gave none. *)
Definition effective_kwargs (w : World) (wikidata_kwargs : option (gmap string pyvalue))
  : gmap string pyvalue :=
  match wikidata_kwargs with
  | Some m => m
  | None => default_wikidata_kwargs w
  end.

(** ** Variations of the concrete world

    The same collaborators, with one of them replaced. *)
Module Cases.

Definition with_llm (f : list ChatMessage -> result (list ChatMessage))
    (w : World) : World :=
  {| environment := environment w;
     cpu_count := cpu_count w;
     similarity_search_with_relevance_scores :=
       similarity_search_with_relevance_scores w;
     embedder_run := embedder_run w;
     get_wikidata_statements_from_query :=
       get_wikidata_statements_from_query w;
     documents_from_dicts := documents_from_dicts w;
     retriever_run := retriever_run w;
     system_prompts := system_prompts w;
     user_prompt_builders := user_prompt_builders w;
     prompt_builder_run := prompt_builder_run w;
     llm_run := f;
     answer_builder_run := answer_builder_run w |}.

Definition with_embedder
    (f : Embedder -> list Document -> result (list Document))
    (w : World) : World :=
  {| environment := environment w;
     cpu_count := cpu_count w;
     similarity_search_with_relevance_scores :=
       similarity_search_with_relevance_scores w;
     embedder_run := f;
     get_wikidata_statements_from_query :=
       get_wikidata_statements_from_query w;
     documents_from_dicts := documents_from_dicts w;
     retriever_run := retriever_run w;
     system_prompts := system_prompts w;
     user_prompt_builders := user_prompt_builders w;
     prompt_builder_run := prompt_builder_run w;
     llm_run := llm_run w;
     answer_builder_run := answer_builder_run w |}.

Definition with_fetcher
    (f : string -> string -> option string -> gmap string pyvalue ->
         result (list statement))
    (w : World) : World :=
  {| environment := environment w;
     cpu_count := cpu_count w;
     similarity_search_with_relevance_scores :=
       similarity_search_with_relevance_scores w;
     embedder_run := embedder_run w;
     get_wikidata_statements_from_query := f;
     documents_from_dicts := documents_from_dicts w;
     retriever_run := retriever_run w;
     system_prompts := system_prompts w;
     user_prompt_builders := user_prompt_builders w;
     prompt_builder_run := prompt_builder_run w;
     llm_run := llm_run w;
     answer_builder_run := answer_builder_run w |}.

Definition with_search
    (f : AstraDBVectorStore -> string -> Z ->
         result (list (LCDocument * float)))
    (w : World) : World :=
  {| environment := environment w;
     cpu_count := cpu_count w;
     similarity_search_with_relevance_scores := f;
     embedder_run := embedder_run w;
     get_wikidata_statements_from_query :=
       get_wikidata_statements_from_query w;
     documents_from_dicts := documents_from_dicts w;
     retriever_run := retriever_run w;
     system_prompts := system_prompts w;
     user_prompt_builders := user_prompt_builders w;
     prompt_builder_run := prompt_builder_run w;
     llm_run := llm_run w;
     answer_builder_run := answer_builder_run w |}.

(** The vector store returns two hits, the second without ['QID']. *)
Definition mixed_hits : World :=
  with_search
    (fun _ _ _ => Ok [(Demo.adams, 0.75%float); (Demo.untagged, 0.5%float)])
    Demo.world.

(** The language model answers with no reply. *)
Definition silent_model : World := with_llm (fun _ => Ok []) Demo.world.

(** The embedder returns no document at all. *)
Definition empty_embedder : World :=
  with_embedder (fun _ _ => Ok []) Demo.world.

(** The embedder returns its documents without an embedding. *)
Definition idle_embedder : World :=
  with_embedder (fun _ docs => Ok docs) Demo.world.

(** The search API of the statement fetcher cannot be reached. *)
Definition unreachable_fetcher : World :=
  with_fetcher (fun _ _ _ _ => Raise (ServiceError "search API unreachable"))
    Demo.world.

(** The statement fetcher finds no statement. *)
Definition no_statements : World :=
  with_fetcher (fun _ _ _ _ => Ok []) Demo.world.

(** [process_query] in a given world, from the pipeline that world
    constructs, with the defaults for the parameters not listed. *)
Definition ask (w : World) (query : string) (top_k : Z) (lang : string)
    (wikidata_kwargs : option (gmap string pyvalue))
  : result GeneratedAnswer * state :=
  process_query w query top_k lang default_content_key default_meta_keys
    default_embedding_similarity_function wikidata_kwargs
    {| self := init w None None; calls := []; log := []; stdout := [] |}.

End Cases.

(** * Properties *)

(** ** The monad's operations *)

Lemma for_each_debug {A} (f : A -> log_message) (l : list A) (st : state) :
  for_each l (fun x => debug (f x)) st = (Ok tt, add_logs (map f l) st).
Proof.
  revert st. induction l as [|a l IH]; intros st; simpl.
  - unfold ret, add_logs. simpl. rewrite app_nil_r. by destruct st.
  - unfold bind, debug. rewrite IH. unfold add_logs, add_log. simpl.
    by rewrite <- app_assoc.
Qed.

Lemma for_each_add_log {A} (f : A -> log_message) (l : list A) (st : state) :
  for_each l (fun x s => (Ok tt, add_log (f x) s)) st
    = (Ok tt, add_logs (map f l) st).
Proof. apply for_each_debug. Qed.

Lemma emitted_app (st st' : state) (evs : list event) :
  calls st' = calls st ++ evs -> emitted st st' = evs.
Proof. unfold emitted. intros ->. apply drop_app_length. Qed.

Lemma emitted_refl (st : state) : emitted st st = [].
Proof. apply emitted_app. by rewrite app_nil_r. Qed.

(** ** The pipeline object is only read *)

Lemma keeps_self_ret {A} (a : A) : keeps_self (ret a).
Proof. by intros st. Qed.

Lemma keeps_self_lift {A} (r : result A) : keeps_self (lift r).
Proof. by intros st. Qed.

Lemma keeps_self_getattr {A} (f : RetreivalAugmentedGenerationPipeline -> A) :
  keeps_self (getattr f).
Proof. by intros st. Qed.

Lemma keeps_self_call {A} (ev : event) (r : result A) : keeps_self (call ev r).
Proof. by intros st. Qed.

Lemma keeps_self_debug (msg : log_message) : keeps_self (debug msg).
Proof. by intros st. Qed.

Lemma keeps_self_print (e : exn) : keeps_self (print e).
Proof. by intros st. Qed.

Lemma keeps_self_bind {A B} (m : M A) (k : A -> M B) :
  keeps_self m -> (forall a, keeps_self (k a)) -> keeps_self (bind m k).
Proof.
  intros Hm Hk st. unfold bind. specialize (Hm st).
  destruct (m st) as [[a|e] st1]; simpl in *; [|done].
  by rewrite Hk.
Qed.

Lemma keeps_self_try_except {A} (body : M A) (handler : exn -> M A) :
  keeps_self body -> (forall e, keeps_self (handler e)) ->
  keeps_self (try_except body handler).
Proof.
  intros Hb Hh st. unfold try_except. specialize (Hb st).
  destruct (body st) as [[a|e] st1]; simpl in *; [done|].
  destruct (is_Exception e); simpl; [|done].
  by rewrite Hh.
Qed.

Lemma keeps_self_for_each {A} (l : list A) (body : A -> M unit) :
  (forall a, keeps_self (body a)) -> keeps_self (for_each l body).
Proof.
  intros Hb. induction l as [|a l IH]; simpl.
  - apply keeps_self_ret.
  - apply keeps_self_bind; [apply Hb | by intros _].
Qed.

Create HintDb keeps_self.
#[global] Hint Resolve keeps_self_ret keeps_self_lift keeps_self_getattr
  keeps_self_call keeps_self_debug keeps_self_print : keeps_self.

Ltac solve_keeps_self :=
  repeat first
    [ progress intros
    | apply keeps_self_bind
    | apply keeps_self_try_except
    | apply keeps_self_for_each
    | solve [auto with keeps_self]
    | match goal with
      | |- keeps_self (match ?x with _ => _ end) => destruct x
      | |- keeps_self (if ?x then _ else _) => destruct x
      end ].

Lemma keeps_self_retrieve w q k lang ck mk sim kw :
  keeps_self (retrieve w q k lang ck mk sim kw).
Proof.
  unfold retrieve, primary_retrieval, fallback_retrieval, fetch_statements,
    setup_document_stream_from_list.
  solve_keeps_self.
Qed.

Lemma keeps_self_answer w q lang docs : keeps_self (answer w q lang docs).
Proof. unfold answer. solve_keeps_self. Qed.

(** The constructor, by contrast, assigns every field. *)
Lemma init_run w model dev st :
  __init__ w model dev st =
    (Ok tt, {| self := init w model dev; calls := calls st; log := log st;
               stdout := stdout st |}).
Proof. reflexivity. Qed.

Lemma init_embedder w model dev :
  embedder (init w model dev)
    = make_embedder (embedding_model (init w model dev))
        (device (init w model dev)).
Proof. reflexivity. Qed.

(** C7: [process_query] leaves the pipeline object as it found it: after
    the call, whether it returned or raised, [self] and so each of its
    fields [embedding_model], [device], [embedder], [graph_store] and
    [logger] is what it was before.  The call only adds to the record of
    collaborator calls, to the logger's records and to what was printed. *)
Theorem process_query_keeps_pipeline w q k lang ck mk sim kw st :
  let st' := (process_query w q k lang ck mk sim kw st).2 in
  self st' = self st /\
  embedding_model (self st') = embedding_model (self st) /\
  device (self st') = device (self st) /\
  embedder (self st') = embedder (self st) /\
  graph_store (self st') = graph_store (self st) /\
  logger (self st') = logger (self st).
Proof.
  assert (H : keeps_self (process_query w q k lang ck mk sim kw)).
  { unfold process_query. apply keeps_self_bind.
    - apply keeps_self_retrieve.
    - intros docs. apply keeps_self_answer. }
  simpl. rewrite (H st). repeat split.
Qed.

(** ** Case analysis of a run *)

#[local] Set Warnings "-clear-no-such-hyp".

Ltac unfold_pipeline :=
  unfold process_query, retrieve, answer, primary_retrieval,
    fallback_retrieval, fetch_statements, setup_document_stream_from_list,
    try_except, bind, ret, call, lift, getattr, debug, print.

(** One step of a run: a logging loop is replaced by its effect, or the
    outcome of the next collaborator call is split into its cases. *)
Ltac run_step :=
  first
    [ rewrite for_each_add_log
    | match goal with
      | |- context [match ?x with _ => _ end] =>
          lazymatch x with
          | context [match _ with _ => _ end] => fail
          | _ => destruct x eqn:?
          end
      end ].

Ltac run_cases := unfold_pipeline; simpl; repeat (run_step; simpl).

(** The calls of a finished run, as an explicit list. *)
Ltac list_calls :=
  repeat match goal with
    | |- context [emitted ?st ?st'] =>
        erewrite (emitted_app st st');
        [|simpl; rewrite <- ?app_assoc; reflexivity]
    | H : context [emitted ?st ?st'] |- _ =>
        erewrite (emitted_app st st') in H;
        [|simpl; rewrite <- ?app_assoc; reflexivity]
    end;
  simpl in *.

Lemma primary_result_search_raise w store q k e :
  similarity_search_with_relevance_scores w store q k = Raise e ->
  primary_result w store q k = Raise e.
Proof. unfold primary_result. by intros ->. Qed.

Lemma primary_retrieval_run w q k st :
  let st1 := add_call (SimilaritySearch (graph_store (self st)) q k) st in
  primary_retrieval w q k st =
    match primary_result w (graph_store (self st)) q k with
    | Ok docs => (Ok docs, st1)
    | Raise e =>
        if is_Exception e then (Ok [], add_print e st1) else (Raise e, st1)
    end.
Proof.
  unfold primary_result. run_cases; simpl in *; congruence.
Qed.

(** A conversion error is a [KeyError], which [except Exception] catches. *)
Lemma comprehension_to_document_raise hits e :
  comprehension to_document hits = Raise e -> is_Exception e = true.
Proof.
  induction hits as [|h hits IH]; simpl; [done|].
  unfold to_document at 1, getitem.
  destruct (metadata h.1 !! "QID"); simpl.
  - destruct (comprehension to_document hits); simpl; [done|].
    intros [= <-]. by apply IH.
  - by intros [= <-].
Qed.

(** Facts the case analysis leaves behind, in the form the goals use. *)
Ltac tidy :=
  repeat match goal with
    | H : (length ?l =? 0) = true |- _ =>
        apply Nat.eqb_eq, length_zero_iff_nil in H; subst l
    | H : (length ?l =? 0) = false |- _ =>
        apply Nat.eqb_neq in H; destruct l; [done|clear H]
    | H : comprehension to_document _ = Raise ?e |- _ =>
        lazymatch goal with
        | _ : is_Exception e = true |- _ => fail
        | _ => pose proof (comprehension_to_document_raise _ _ H)
        end
    end;
  simplify_eq.

Lemma fallback_ran_iff w q k lang ck mk sim kw st :
  let primary := primary_result w (graph_store (self st)) q k in
  fallback_ran (emitted st (process_query w q k lang ck mk sim kw st).2) = true
  <-> primary = Ok [] \/
      exists e, primary = Raise e /\ is_Exception e = true.
Proof.
  simpl. unfold primary_result.
  run_cases; list_calls; tidy; naive_solver congruence.
Qed.

(** C1, as amended: the fallback runs exactly when the primary retrieval
    step, that is the similarity search together with the conversion of its
    hits into documents (which reads the ['QID'] entry of each hit's
    metadata), yields no document or raises an [Exception]; when that step
    yields at least one document the fallback is not invoked. *)
Theorem fallback_iff_primary_yields_nothing w q k lang ck mk sim kw st :
  let st' := (process_query w q k lang ck mk sim kw st).2 in
  let primary := primary_result w (graph_store (self st)) q k in
  (fallback_ran (emitted st st') = true <->
     primary = Ok [] \/
     exists e, primary = Raise e /\ is_Exception e = true) /\
  (forall d ds, primary = Ok (d :: ds) ->
     fallback_ran (emitted st st') = false).
Proof.
  simpl. split; [apply fallback_ran_iff|].
  intros d ds Hprimary. apply not_true_iff_false.
  rewrite fallback_ran_iff, Hprimary. naive_solver.
Qed.

(** ** The primary path *)

Lemma comprehension_to_document_ok hits docs :
  comprehension to_document hits = Ok docs -> Forall2 converted hits docs.
Proof.
  revert docs. induction hits as [|h hits IH]; simpl; intros docs.
  - intros [= <-]. constructor.
  - unfold to_document at 1, getitem.
    destruct (metadata h.1 !! "QID") as [qid|] eqn:Hqid; simpl; [|done].
    destruct (comprehension to_document hits) as [ds|]; simpl; [|done].
    intros [= <-]. constructor; [|by apply IH].
    repeat split. by exists qid.
Qed.

Lemma process_query_after_retrieve w q k lang ck mk sim kw st docs st1 :
  retrieve w q k lang ck mk sim kw st = (Ok docs, st1) ->
  process_query w q k lang ck mk sim kw st = answer w q lang docs st1.
Proof. intros H. unfold process_query, bind. by rewrite H. Qed.

(** C3: when the primary retrieval succeeds with a non-empty result, the
    only call made to obtain the documents is the similarity search, on the
    query string as given and with [k = top_k]; the documents are the hits
    converted one by one, each carrying the score the vector store returned
    and, under ['qid'] in its metadata, the ['QID'] of the hit it came
    from; and these are the documents the rest of [process_query] works
    with. *)
Theorem primary_documents_scored_and_tagged w q k lang ck mk sim kw st docs :
  primary_result w (graph_store (self st)) q k = Ok docs ->
  docs <> [] ->
  let st1 := add_call (SimilaritySearch (graph_store (self st)) q k) st in
  retrieve w q k lang ck mk sim kw st = (Ok docs, st1) /\
  emitted st st1 = [SimilaritySearch (graph_store (self st)) q k] /\
  process_query w q k lang ck mk sim kw st = answer w q lang docs st1 /\
  exists hits,
    similarity_search_with_relevance_scores w (graph_store (self st)) q k
      = Ok hits /\
    Forall2 converted hits docs.
Proof.
  intros Hprimary Hne st1.
  assert (Hretrieve : retrieve w q k lang ck mk sim kw st = (Ok docs, st1)).
  { unfold retrieve, bind. rewrite primary_retrieval_run, Hprimary.
    destruct docs; [done|]. reflexivity. }
  split; [done|]. split; [by apply emitted_app|].
  split; [by apply process_query_after_retrieve|].
  unfold primary_result in Hprimary.
  destruct (similarity_search_with_relevance_scores _ _ _ _) as [hits|];
    simpl in Hprimary; [|done].
  exists hits. split; [done|]. by apply comprehension_to_document_ok.
Qed.

(** ** The handler *)

(** C8: an error (an [Exception]) raised by the similarity search does not
    leave the [try] block: the handler prints it, [retriever_results] is
    still the empty list, and [process_query] goes on with the fallback
    path from there. *)
Theorem search_error_is_caught w q k lang ck mk sim kw st e :
  similarity_search_with_relevance_scores w (graph_store (self st)) q k
    = Raise e ->
  is_Exception e = true ->
  let st1 :=
    add_print e (add_call (SimilaritySearch (graph_store (self st)) q k) st) in
  primary_retrieval w q k st = (Ok [], st1) /\
  process_query w q k lang ck mk sim kw st =
    bind (fallback_retrieval w q k lang ck mk sim kw)
         (answer w q lang) st1 /\
  fallback_ran (emitted st (process_query w q k lang ck mk sim kw st).2)
    = true.
Proof.
  intros Hsearch He st1.
  assert (Hprimary : primary_retrieval w q k st = (Ok [], st1)).
  { rewrite primary_retrieval_run.
    by rewrite (primary_result_search_raise _ _ _ _ _ Hsearch), He. }
  split; [done|]. split.
  - unfold process_query, retrieve, bind. by rewrite Hprimary.
  - apply fallback_ran_iff. right. exists e.
    split; [by apply primary_result_search_raise | done].
Qed.

(** ** Prompt and answer *)

Lemma first_Forall2 {A B} (R : A -> B -> Prop) a l answers :
  Forall2 R (a :: l) answers ->
  exists b, first answers = Ok b /\ R a b.
Proof. intros H. inversion H; subst. eauto. Qed.

(** C4: once the documents are retrieved and the prompt is rendered,
    [process_query] sends the language model exactly the system prompt and
    the rendered prompt, hands the model's replies and the retrieved
    documents to the answer builder, and returns the answer built from the
    first reply: its data is that reply's text and its documents are the
    retrieved ones. *)
Theorem answer_is_first_reply w q k lang ck mk sim kw st
    docs sp b prompt reply replies :
  let st1 := (retrieve w q k lang ck mk sim kw st).2 in
  let out := process_query w q k lang ck mk sim kw st in
  (retrieve w q k lang ck mk sim kw st).1 = Ok docs ->
  system_prompts w !! lang = Some sp ->
  user_prompt_builders w !! lang = Some b ->
  prompt_builder_run w b q docs = Ok prompt ->
  llm_run w [from_system sp; from_user prompt] = Ok (reply :: replies) ->
  answer_builder_contract w ->
  emitted st1 out.2 =
    [BuildPrompt b q docs;
     Generate [from_system sp; from_user prompt];
     BuildAnswer q (reply :: replies) (map message_meta (reply :: replies))
       docs] /\
  exists a,
    out.1 = Ok a /\ data a = text reply /\ answer_query a = q /\
    documents a = docs.
Proof.
  intros st1 out Hdocs Hsp Hb Hprompt Hllm Hbuilder. subst st1 out.
  destruct (retrieve w q k lang ck mk sim kw st) as [r st1] eqn:Hretrieve.
  simpl in Hdocs. subst r.
  rewrite (process_query_after_retrieve _ _ _ _ _ _ _ _ _ _ _ Hretrieve).
  destruct (Hbuilder q (reply :: replies) docs) as (answers & Hrun & Hall).
  destruct (first_Forall2 _ _ _ _ Hall) as (a & Hfirst & Hdata & Hq & Hds).
  unfold answer, bind, lift, call, debug, getitem.
  simpl. rewrite for_each_add_log. simpl.
  rewrite Hsp, Hb. simpl. rewrite Hprompt, Hllm. simpl.
  simpl in Hrun. rewrite Hrun, Hfirst. simpl.
  split; [by list_calls|]. by exists a.
Qed.

(** C5: for the documents the retrieval produced, on whichever path, and a
    language the two tables know, the prompt builder selected is the one of
    that language and it is run on exactly the query and those documents;
    when it renders a prompt, the messages for the language model are the
    system prompt of that language followed by the rendered prompt. *)
Theorem prompt_from_question_and_documents w q k lang ck mk sim kw st
    docs sp b :
  let st1 := (retrieve w q k lang ck mk sim kw st).2 in
  let out := process_query w q k lang ck mk sim kw st in
  (retrieve w q k lang ck mk sim kw st).1 = Ok docs ->
  system_prompts w !! lang = Some sp ->
  user_prompt_builders w !! lang = Some b ->
  match prompt_builder_run w b q docs with
  | Ok prompt =>
      exists rest,
        emitted st1 out.2 =
          BuildPrompt b q docs
            :: Generate [from_system sp; from_user prompt] :: rest /\
        count_kind KPrompt rest = 0 /\ count_kind KGenerate rest = 0
  | Raise e => emitted st1 out.2 = [BuildPrompt b q docs] /\ out.1 = Raise e
  end.
Proof.
  intros st1 out Hdocs Hsp Hb. subst st1 out.
  destruct (retrieve w q k lang ck mk sim kw st) as [r st1] eqn:Hretrieve.
  simpl in Hdocs. subst r.
  rewrite (process_query_after_retrieve _ _ _ _ _ _ _ _ _ _ _ Hretrieve).
  unfold answer, bind, lift, call, debug, getitem.
  simpl. rewrite for_each_add_log. simpl. rewrite Hsp, Hb. simpl.
  destruct (prompt_builder_run w b q docs) as [prompt|e]; simpl.
  - destruct (llm_run w _) as [replies|]; simpl;
      [destruct (answer_builder_run w _ _ _ _); simpl|];
      list_calls; eexists; (split; [reflexivity|done]).
  - split; [by list_calls|done].
Qed.

(** ** The two retrieval paths *)

(** Membership in an explicit list of calls, as a disjunction. *)
Ltac split_membership :=
  repeat match goal with
    | H : _ ∈ _ :: _ |- _ => apply elem_of_cons in H; destruct H as [H|H]
    | H : _ ∈ [] |- _ => by apply elem_of_nil in H
    end;
  simplify_eq/=.

(** C6: the documents handed to the prompt builder and to the answer
    builder come from one retrieval path.  Either they are the non-empty
    result of the primary retrieval and no call of the fallback path was
    made, or the primary retrieval yielded nothing, the fallback ran and
    they are what its retriever returned.  The fallback's statement fetch
    and its retriever each run at most once. *)
Theorem documents_from_one_path w q k lang ck mk sim kw st :
  let evs := emitted st (process_query w q k lang ck mk sim kw st).2 in
  let primary := primary_result w (graph_store (self st)) q k in
  (forall ev docs, ev ∈ evs -> documents_used ev = Some docs ->
     (primary = Ok docs /\ docs <> [] /\ fallback_ran evs = false) \/
     (fallback_ran evs = true /\
      (forall d ds, primary <> Ok (d :: ds)) /\
      exists r qe, Retrieve r qe k ∈ evs /\ retriever_run w r qe k = Ok docs)) /\
  count_kind KFetch evs <= 1 /\
  count_kind KRetrieve evs <= 1.
Proof.
  simpl. unfold primary_result.
  run_cases; list_calls; tidy.
  all: split; [|by (split; vm_compute; lia)].
  all: intros ev docs Hin Hdocs; split_membership.
  all: try solve [left; done].
  all: right; (split; [done|]); (split; [congruence|]).
  all: do 2 eexists; (split; [|eassumption]); set_solver.
Qed.

(** C9: in one call of [process_query], the documents the answer builder
    is given are the documents the prompt was rendered from; whenever the
    answer builder is called, the prompt builder was called before it, on
    the same documents. *)
Theorem answer_documents_are_prompt_documents w q k lang ck mk sim kw st
    b q1 docs1 q2 replies metas docs2 :
  let evs := emitted st (process_query w q k lang ck mk sim kw st).2 in
  BuildPrompt b q1 docs1 ∈ evs ->
  BuildAnswer q2 replies metas docs2 ∈ evs ->
  docs1 = docs2.
Proof.
  simpl. run_cases; list_calls; intros H1 H2; split_membership; done.
Qed.

(** C10, as amended: the similarity search is asked for [k = top_k] hits
    and the in-memory retriever for the same [top_k] documents; so, for a
    [top_k] that is not negative, the vector store and the retriever
    returning no more than the number they are asked for, the documents
    handed to the prompt builder and to the answer builder are at most
    [top_k], on either path.  [top_k] is passed on unchecked, and nothing
    is claimed for a negative one. *)
Theorem at_most_top_k_documents w q k lang ck mk sim kw st :
  let evs := emitted st (process_query w q k lang ck mk sim kw st).2 in
  (0 <= k)%Z ->
  search_limit_contract w ->
  retriever_limit_contract w ->
  (forall store q' k', SimilaritySearch store q' k' ∈ evs -> k' = k) /\
  (forall r qe top, Retrieve r qe top ∈ evs -> top = k) /\
  (forall ev docs, ev ∈ evs -> documents_used ev = Some docs ->
     (Z.of_nat (length docs) <= k)%Z).
Proof.
  simpl. intros Hk Hsearch Hretriever.
  assert (Hconv : forall hits docs,
            comprehension to_document hits = Ok docs ->
            length docs = length hits).
  { intros hits docs H. symmetry.
    by eapply Forall2_length, comprehension_to_document_ok. }
  run_cases; list_calls; tidy.
  all: repeat split; intros; split_membership; try done.
  all: try (by eapply Hretriever).
  all: match goal with
       | Hc : comprehension to_document ?hits = Ok _,
         Hs : similarity_search_with_relevance_scores _ _ _ _ = Ok ?hits
         |- _ =>
           apply Hconv in Hc; apply (Hsearch _ _ _ _ Hk) in Hs;
           simpl in Hc; lia
       end.
Qed.

(** ** The fallback path *)

(** The names line 136-139 pass themselves; a key of [wikidata_kwargs]
    equal to one of them makes the call a [TypeError]. *)
Lemma clash_found (m : gmap string pyvalue) (key : string) :
  key ∈ ["question"; "lang"; "serapi_api_key"] ->
  is_Some (m !! key) ->
  filter (fun k => bool_decide (is_Some (m !! k)))
         ["question"; "lang"; "serapi_api_key"] <> [].
Proof.
  intros Hin Hsome Hnil.
  assert (Hf : key ∈ filter (fun k => bool_decide (is_Some (m !! k)))
                      ["question"; "lang"; "serapi_api_key"]).
  { apply list_elem_of_filter. split; [by apply bool_decide_pack|done]. }
  rewrite Hnil in Hf. by apply elem_of_nil in Hf.
Qed.

Lemma no_clash (m : gmap string pyvalue) :
  (forall key, key ∈ ["question"; "lang"; "serapi_api_key"] ->
               m !! key = None) ->
  filter (fun k => bool_decide (is_Some (m !! k)))
         ["question"; "lang"; "serapi_api_key"] = [].
Proof.
  intros Hnone.
  destruct (filter _ _) as [|k l] eqn:Hf; [done|].
  assert (Hin : k ∈ filter (fun k => bool_decide (is_Some (m !! k)))
                       ["question"; "lang"; "serapi_api_key"])
    by (rewrite Hf; apply list_elem_of_here).
  apply list_elem_of_filter in Hin as [Hsome Hin].
  apply bool_decide_unpack in Hsome. rewrite (Hnone _ Hin) in Hsome.
  by destruct Hsome.
Qed.

Lemma default_wikidata_kwargs_no_clash w key :
  key ∈ ["question"; "lang"; "serapi_api_key"] ->
  default_wikidata_kwargs w !! key = None.
Proof.
  intros Hin. unfold default_wikidata_kwargs.
  repeat (apply elem_of_cons in Hin as [->|Hin]; [by vm_compute|]).
  by apply elem_of_nil in Hin.
Qed.

(** C2: when the fallback path runs, its calls come in this order: the
    embedding of the query, the statement fetch, the embedding of the
    documents made from the fetched statements, the in-memory retrieval;
    the retriever works on the store of the documents just embedded and is
    given the embedding of the query.  Every embedding is done by the
    pipeline's own embedder, which the constructor builds from the
    pipeline's embedding model.  Whenever the retriever is reached, all
    these calls were made before it; and whenever the embedder and the
    statement fetcher answer, all of them are made: the statement fetcher
    is invoked, then the statements are embedded, then the retriever is
    run, and no call of the fallback path follows. *)
Theorem fallback_steps_in_order w q k lang ck mk sim kw st :
  let evs := emitted st (process_query w q k lang ck mk sim kw st).2 in
  let emb := embedder (self st) in
  let key := SERAPI_API_KEY (environment w) in
  let kwargs := default (default_wikidata_kwargs w) kw in
  fallback_ran evs = true ->
  map kind_of evs `prefix_of`
    [KSearch; KEmbed; KFetch; KEmbed; KRetrieve; KPrompt; KGenerate; KAnswer]
  /\ (forall emb' docs, Embed emb' docs ∈ evs -> emb' = emb)
  /\ (forall model dev, self st = init w model dev ->
        embedder_model emb = embedding_model (self st))
  /\ (forall r qe top, Retrieve r qe top ∈ evs ->
        exists statements docs embedded qd qds rest,
          get_wikidata_statements_from_query w q lang key kwargs
            = Ok statements /\
          documents_from_dicts w statements ck mk = Ok docs /\
          embedder_run w emb docs = Ok embedded /\
          embedder_run w emb [Document_of_content q] = Ok (qd :: qds) /\
          embedding qd = Some qe /\
          r = {| document_store :=
                   {| stored := embedded; similarity := sim |} |} /\
          top = k /\
          evs = [SimilaritySearch (graph_store (self st)) q k;
                 Embed emb [Document_of_content q];
                 FetchStatements q lang key kwargs;
                 Embed emb docs;
                 Retrieve r qe k] ++ rest)
  /\ (forall qd qds qe statements docs embedded,
        embedder_run w emb [Document_of_content q] = Ok (qd :: qds) ->
        embedding qd = Some qe ->
        (forall name, name ∈ ["question"; "lang"; "serapi_api_key"] ->
                      kwargs !! name = None) ->
        get_wikidata_statements_from_query w q lang key kwargs
          = Ok statements ->
        documents_from_dicts w statements ck mk = Ok docs ->
        embedder_run w emb docs = Ok embedded ->
        exists rest,
          evs = [SimilaritySearch (graph_store (self st)) q k;
                 Embed emb [Document_of_content q];
                 FetchStatements q lang key kwargs;
                 Embed emb docs;
                 Retrieve
                   {| document_store :=
                        {| stored := embedded; similarity := sim |} |}
                   qe k] ++ rest /\
          Forall (fun ev => is_fallback_call ev = false) rest).
Proof.
  simpl. intros Hran.
  split; [|split; [|split; [|split]]].
  - revert Hran. run_cases; list_calls; try done; intros _.
    all: by repeat first [apply prefix_cons | apply prefix_nil].
  - revert Hran. run_cases; list_calls; try done; intros _ emb' docs' Hin.
    all: by split_membership.
  - intros model dev ->. reflexivity.
  - revert Hran. run_cases; list_calls; try done; intros _ r' qe' top' Hin.
    all: split_membership.
    all: match goal with
         | H : first ?l = Ok _ |- _ => destruct l; simplify_eq/=
         end.
    all: match goal with
         | H : to_list ?e = Ok _ |- _ => destruct e eqn:?; simplify_eq/=
         end.
    all: by repeat eexists.
  - intros qd qds qe statements docs embedded
      Hquery Hqe Hclash Hfetch Hdocs Hembedded.
    apply no_clash in Hclash.
    revert Hran. unfold_pipeline. simpl.
    repeat (run_step; simpl); list_calls; tidy; try done; try congruence.
    all: simpl in *; simplify_eq.
    all: repeat match goal with
         | Hn : embedding ?d = Some _, H : to_list (embedding ?d) = _ |- _ =>
             rewrite Hn in H; simpl in H
         end; simplify_eq.
    all: try done; try congruence.
    all: intros _.
    all: repeat match goal with
         | H1 : ?x = Ok _, H2 : ?x = _ |- _ => rewrite H1 in H2; simplify_eq
         end.
    all: eexists; split; [reflexivity|]; by repeat constructor.
Qed.

(** ** The concrete world: contracts, examples *)

Lemma demo_answer_builder_contract : answer_builder_contract Demo.world.
Proof.
  intros query replies docs. eexists. split; [reflexivity|].
  induction replies as [|r replies IH]; simpl; constructor; [done|apply IH].
Qed.

Lemma demo_search_limit_contract : search_limit_contract Demo.world.
Proof.
  intros store query k hits Hk. simpl. unfold Demo.search.
  destruct (Z.ltb_spec k 0); [done|].
  repeat case_match; intros [= <-]; rewrite ?length_take; simpl; lia.
Qed.

Lemma demo_retriever_limit_contract : retriever_limit_contract Demo.world.
Proof.
  intros r qe top_k docs Hk. simpl. unfold Demo.nearest, slice_to.
  destruct (Z.ltb_spec top_k 0); [lia|].
  intros [= <-]. rewrite length_take. lia.
Qed.

(** The primary path: one search, then prompt, generation and answer. *)
Example primary_path_calls :
  map kind_of (calls (Demo.ask "Who is Douglas Adams?" 10 "en").2)
    = [KSearch; KPrompt; KGenerate; KAnswer].
Proof. vm_compute. reflexivity. Qed.

(** The vector store knows nothing of the query: the fallback runs. *)
Example fallback_path_calls :
  map kind_of (calls (Demo.ask "Who is Albert Einstein?" 10 "en").2)
    = [KSearch; KEmbed; KFetch; KEmbed; KRetrieve; KPrompt; KGenerate;
       KAnswer].
Proof. vm_compute. reflexivity. Qed.

(** A hit without ['QID']: the [KeyError] is caught and printed, and the
    fallback runs. *)
Example untagged_hit_falls_back :
  stdout (Demo.ask "untagged" 10 "en").2 = [KeyError "QID"] /\
  map kind_of (calls (Demo.ask "untagged" 10 "en").2)
    = [KSearch; KEmbed; KFetch; KEmbed; KRetrieve; KPrompt; KGenerate;
       KAnswer].
Proof. split; vm_compute; reflexivity. Qed.

(** A failing search is printed and the query is still answered. *)
Example offline_search_is_answered :
  stdout (Demo.ask "offline" 10 "en").2 = [ServiceError "timeout"] /\
  data <$> result_to_option (Demo.ask "offline" 10 "en").1
    = Some "See the statements.".
Proof. split; vm_compute; reflexivity. Qed.

(** [KeyboardInterrupt] is no [Exception]: it leaves [process_query]. *)
Example interrupt_propagates :
  (Demo.ask "interrupt" 10 "en").1 = Raise KeyboardInterrupt /\
  map kind_of (calls (Demo.ask "interrupt" 10 "en").2) = [KSearch].
Proof. split; vm_compute; reflexivity. Qed.

(** A language the tables of prompts do not know. *)
Example unknown_language_raises :
  (Demo.ask "Who is Douglas Adams?" 10 "fr").1 = Raise (KeyError "fr").
Proof. vm_compute. reflexivity. Qed.

(** With [top_k = 0] the search finds nothing, the fallback's retriever
    returns nothing, and the query is answered from no document. *)
Example zero_top_k_is_answered :
  documents <$> result_to_option (Demo.ask "Who is Douglas Adams?" 0 "en").1
    = Some [].
Proof. vm_compute. reflexivity. Qed.

(** C10, as the claim states it, fails: with [top_k = -1] the search is
    refused, the fallback runs, its retriever slices the two embedded
    statements with [[:-1]] and returns one document, and that one
    document, more than [top_k], is handed to the prompt builder. *)
Lemma negative_top_k_is_exceeded :
  ~ (forall ev docs,
       ev ∈ emitted Demo.start (Demo.ask "Who is Albert Einstein?" (-1) "en").2 ->
       documents_used ev = Some docs ->
       (Z.of_nat (length docs) <= -1)%Z).
Proof.
  intros Hbound.
  assert (Hin : BuildPrompt {| template := "Question: " |}
                  "Who is Albert Einstein?" [Demo.einstein_embedded]
                ∈ emitted Demo.start
                    (Demo.ask "Who is Albert Einstein?" (-1) "en").2).
  { apply list_elem_of_lookup. exists 5%nat. vm_compute. reflexivity. }
  specialize (Hbound _ _ Hin eq_refl). simpl in Hbound. lia.
Qed.

(** C1, as the claim states it, fails: for the query ["untagged"] the
    similarity search returns one hit and raises nothing, the hit has no
    ['QID'] in its metadata, the conversion raises a [KeyError] inside the
    [try] block, and the fallback runs. *)
Lemma fallback_runs_despite_search_hit :
  ~ (fallback_ran (emitted Demo.start (Demo.ask "untagged" 10 "en").2) = true
     <-> (similarity_search_with_relevance_scores Demo.world
            (graph_store (self Demo.start)) "untagged" 10 = Ok [] \/
          exists e,
            similarity_search_with_relevance_scores Demo.world
              (graph_store (self Demo.start)) "untagged" 10 = Raise e)).
Proof.
  intros [Hrun _].
  assert (Hran : fallback_ran
                   (emitted Demo.start (Demo.ask "untagged" 10 "en").2) = true)
    by (vm_compute; reflexivity).
  destruct (Hrun Hran) as [H|[e H]]; vm_compute in H; discriminate H.
Qed.

Lemma fallback_steps_in_order_witness :
  fallback_ran
    (emitted Demo.start (Demo.ask "Who is Albert Einstein?" 10 "en").2) = true /\
  exists rest,
    emitted Demo.start (Demo.ask "Who is Albert Einstein?" 10 "en").2 =
      [SimilaritySearch (graph_store (self Demo.start))
         "Who is Albert Einstein?" 10;
       Embed (embedder (self Demo.start))
         [Document_of_content "Who is Albert Einstein?"];
       FetchStatements "Who is Albert Einstein?" "en" (Some "key")
         (default_wikidata_kwargs Demo.world);
       Embed (embedder (self Demo.start))
         [Demo.einstein_document; Demo.born_document];
       Retrieve
         {| document_store :=
              {| stored := [Demo.einstein_embedded; Demo.born_embedded];
                 similarity := "cosine" |} |}
         [1%float; 0%float] 10] ++ rest /\
    Forall (fun ev => is_fallback_call ev = false) rest.
Proof.
  assert (Hran : fallback_ran
                   (emitted Demo.start
                      (Demo.ask "Who is Albert Einstein?" 10 "en").2) = true)
    by (vm_compute; reflexivity).
  split; [exact Hran|].
  destruct (fallback_steps_in_order Demo.world "Who is Albert Einstein?" 10
              "en" default_content_key default_meta_keys
              default_embedding_similarity_function None Demo.start Hran)
    as (_ & _ & _ & _ & Hall).
  apply (Hall
           {| content := Some "Who is Albert Einstein?"; score := None;
              meta := ∅; embedding := Some [1%float; 0%float] |}
           [] [1%float; 0%float] [Demo.einstein; Demo.born]
           [Demo.einstein_document; Demo.born_document]
           [Demo.einstein_embedded; Demo.born_embedded]).
  - reflexivity.
  - reflexivity.
  - exact (default_wikidata_kwargs_no_clash Demo.world).
  - reflexivity.
  - vm_compute; reflexivity.
  - vm_compute; reflexivity.
Defined.

Lemma primary_documents_scored_and_tagged_witness :
  primary_result Demo.world (graph_store (self Demo.start))
    "Who is Douglas Adams?" 10 = Ok [Demo.adams_document] /\
  [Demo.adams_document] <> [] /\
  exists hits,
    similarity_search_with_relevance_scores Demo.world
      (graph_store (self Demo.start)) "Who is Douglas Adams?" 10 = Ok hits /\
    Forall2 converted hits [Demo.adams_document].
Proof.
  assert (H1 : primary_result Demo.world (graph_store (self Demo.start))
                 "Who is Douglas Adams?" 10 = Ok [Demo.adams_document])
    by (vm_compute; reflexivity).
  assert (H2 : [Demo.adams_document] <> []) by discriminate.
  split; [exact H1|]. split; [exact H2|].
  apply (primary_documents_scored_and_tagged Demo.world
           "Who is Douglas Adams?" 10 "en" default_content_key
           default_meta_keys default_embedding_similarity_function None
           Demo.start [Demo.adams_document] H1 H2).
Defined.

Lemma answer_is_first_reply_witness :
  answer_builder_contract Demo.world /\
  exists a,
    (Demo.ask "Who is Douglas Adams?" 10 "en").1 = Ok a /\
    data a = "See the statements." /\
    answer_query a = "Who is Douglas Adams?" /\
    documents a = [Demo.adams_document].
Proof.
  split; [exact demo_answer_builder_contract|].
  apply (answer_is_first_reply Demo.world "Who is Douglas Adams?" 10 "en"
           default_content_key default_meta_keys
           default_embedding_similarity_function None Demo.start
           [Demo.adams_document] "Answer in English."
           {| template := "Question: " |}
           "Question: Who is Douglas Adams?"
           {| role := assistant; text := "See the statements.";
              message_meta := ∅ |} []);
    try (vm_compute; reflexivity).
  exact demo_answer_builder_contract.
Defined.

Lemma prompt_from_question_and_documents_witness :
  (retrieve Demo.world "Who is Douglas Adams?" 10 "de" default_content_key
     default_meta_keys default_embedding_similarity_function None
     Demo.start).1 = Ok [Demo.adams_document] /\
  system_prompts Demo.world !! "de" = Some "Antworte auf Deutsch." /\
  user_prompt_builders Demo.world !! "de" = Some {| template := "Frage: " |} /\
  match prompt_builder_run Demo.world {| template := "Frage: " |}
          "Who is Douglas Adams?" [Demo.adams_document] with
  | Ok prompt =>
      exists rest,
        emitted
          (retrieve Demo.world "Who is Douglas Adams?" 10 "de"
             default_content_key default_meta_keys
             default_embedding_similarity_function None Demo.start).2
          (Demo.ask "Who is Douglas Adams?" 10 "de").2 =
          BuildPrompt {| template := "Frage: " |} "Who is Douglas Adams?"
            [Demo.adams_document]
            :: Generate [from_system "Antworte auf Deutsch."; from_user prompt]
            :: rest /\
        count_kind KPrompt rest = 0 /\ count_kind KGenerate rest = 0
  | Raise e =>
      emitted
        (retrieve Demo.world "Who is Douglas Adams?" 10 "de"
           default_content_key default_meta_keys
           default_embedding_similarity_function None Demo.start).2
        (Demo.ask "Who is Douglas Adams?" 10 "de").2 =
        [BuildPrompt {| template := "Frage: " |} "Who is Douglas Adams?"
           [Demo.adams_document]] /\
      (Demo.ask "Who is Douglas Adams?" 10 "de").1 = Raise e
  end.
Proof.
  assert (H1 : (retrieve Demo.world "Who is Douglas Adams?" 10 "de"
                  default_content_key default_meta_keys
                  default_embedding_similarity_function None
                  Demo.start).1 = Ok [Demo.adams_document])
    by (vm_compute; reflexivity).
  assert (H2 : system_prompts Demo.world !! "de"
               = Some "Antworte auf Deutsch.") by (vm_compute; reflexivity).
  assert (H3 : user_prompt_builders Demo.world !! "de"
               = Some {| template := "Frage: " |}) by (vm_compute; reflexivity).
  split; [exact H1|]. split; [exact H2|]. split; [exact H3|].
  exact (prompt_from_question_and_documents Demo.world
           "Who is Douglas Adams?" 10 "de" default_content_key
           default_meta_keys default_embedding_similarity_function None
           Demo.start [Demo.adams_document] "Antworte auf Deutsch."
           {| template := "Frage: " |} H1 H2 H3).
Defined.

Lemma search_error_is_caught_witness :
  similarity_search_with_relevance_scores Demo.world
    (graph_store (self Demo.start)) "offline" 10
    = Raise (ServiceError "timeout") /\
  is_Exception (ServiceError "timeout") = true /\
  primary_retrieval Demo.world "offline" 10 Demo.start =
    (Ok [],
     add_print (ServiceError "timeout")
       (add_call (SimilaritySearch (graph_store (self Demo.start)) "offline" 10)
          Demo.start)) /\
  fallback_ran (emitted Demo.start (Demo.ask "offline" 10 "en").2) = true.
Proof.
  assert (H1 : similarity_search_with_relevance_scores Demo.world
                 (graph_store (self Demo.start)) "offline" 10
               = Raise (ServiceError "timeout")) by (vm_compute; reflexivity).
  assert (H2 : is_Exception (ServiceError "timeout") = true) by reflexivity.
  split; [exact H1|]. split; [exact H2|].
  destruct (search_error_is_caught Demo.world "offline" 10 "en"
              default_content_key default_meta_keys
              default_embedding_similarity_function None Demo.start
              (ServiceError "timeout") H1 H2) as (Hp & _ & Hf).
  split; [exact Hp | exact Hf].
Defined.

Lemma answer_documents_are_prompt_documents_witness :
  BuildPrompt {| template := "Question: " |} "Who is Douglas Adams?"
    [Demo.adams_document]
    ∈ emitted Demo.start (Demo.ask "Who is Douglas Adams?" 10 "en").2 /\
  BuildAnswer "Who is Douglas Adams?"
    [{| role := assistant; text := "See the statements.";
        message_meta := ∅ |}] [∅] [Demo.adams_document]
    ∈ emitted Demo.start (Demo.ask "Who is Douglas Adams?" 10 "en").2 /\
  [Demo.adams_document] = [Demo.adams_document].
Proof.
  assert (H1 : BuildPrompt {| template := "Question: " |}
                 "Who is Douglas Adams?" [Demo.adams_document]
               ∈ emitted Demo.start
                   (Demo.ask "Who is Douglas Adams?" 10 "en").2).
  { apply list_elem_of_lookup. exists 1%nat. vm_compute. reflexivity. }
  assert (H2 : BuildAnswer "Who is Douglas Adams?"
                 [{| role := assistant; text := "See the statements.";
                     message_meta := ∅ |}] [∅] [Demo.adams_document]
               ∈ emitted Demo.start
                   (Demo.ask "Who is Douglas Adams?" 10 "en").2).
  { apply list_elem_of_lookup. exists 3%nat. vm_compute. reflexivity. }
  split; [exact H1|]. split; [exact H2|].
  exact (answer_documents_are_prompt_documents Demo.world
           "Who is Douglas Adams?" 10 "en" default_content_key
           default_meta_keys default_embedding_similarity_function None
           Demo.start _ _ _ _ _ _ _ H1 H2).
Defined.

Lemma at_most_top_k_documents_witness :
  (0 <= 1)%Z /\
  search_limit_contract Demo.world /\
  retriever_limit_contract Demo.world /\
  forall ev docs,
    ev ∈ emitted Demo.start (Demo.ask "Who is Albert Einstein?" 1 "en").2 ->
    documents_used ev = Some docs ->
    (Z.of_nat (length docs) <= 1)%Z.
Proof.
  assert (Hk : (0 <= 1)%Z) by lia.
  split; [exact Hk|].
  split; [exact demo_search_limit_contract|].
  split; [exact demo_retriever_limit_contract|].
  apply (at_most_top_k_documents Demo.world "Who is Albert Einstein?" 1 "en"
           default_content_key default_meta_keys
           default_embedding_similarity_function None Demo.start Hk
           demo_search_limit_contract demo_retriever_limit_contract).
Defined.

(** * Further properties of [process_query] *)

Lemma printed_app (st st' : state) (es : list exn) :
  stdout st' = stdout st ++ es -> printed st st' = es.
Proof. unfold printed. intros ->. apply drop_app_length. Qed.

Lemma logged_app (st st' : state) (recs : list (Logger * log_message)) :
  log st' = log st ++ recs -> logged st st' = recs.
Proof. unfold logged. intros ->. apply drop_app_length. Qed.

Lemma retrieve_primary w q k lang ck mk sim kw st docs :
  primary_result w (graph_store (self st)) q k = Ok docs ->
  docs <> [] ->
  retrieve w q k lang ck mk sim kw st =
    (Ok docs, add_call (SimilaritySearch (graph_store (self st)) q k) st).
Proof.
  intros Hprimary Hne. unfold retrieve, bind.
  rewrite primary_retrieval_run, Hprimary. by destruct docs.
Qed.

(** ** Errors of the primary step *)

(** X1: an exception of the similarity search that is no [Exception]
    ([KeyboardInterrupt], [SystemExit]) is not caught: [process_query]
    raises it at once, having made no other call, printed nothing and
    logged nothing. *)
Theorem interrupt_leaves_process_query w q k lang ck mk sim kw st e :
  similarity_search_with_relevance_scores w (graph_store (self st)) q k
    = Raise e ->
  is_Exception e = false ->
  process_query w q k lang ck mk sim kw st =
    (Raise e, add_call (SimilaritySearch (graph_store (self st)) q k) st).
Proof.
  intros Hsearch He. unfold process_query, retrieve, bind.
  rewrite primary_retrieval_run.
  by rewrite (primary_result_search_raise _ _ _ _ _ Hsearch), He.
Qed.

Lemma interrupt_leaves_process_query_witness :
  similarity_search_with_relevance_scores Demo.world
    (graph_store (self Demo.start)) "interrupt" 10 = Raise KeyboardInterrupt /\
  is_Exception KeyboardInterrupt = false /\
  Demo.ask "interrupt" 10 "en" =
    (Raise KeyboardInterrupt,
     add_call (SimilaritySearch (graph_store (self Demo.start)) "interrupt" 10)
       Demo.start).
Proof.
  assert (H1 : similarity_search_with_relevance_scores Demo.world
                 (graph_store (self Demo.start)) "interrupt" 10
               = Raise KeyboardInterrupt) by (vm_compute; reflexivity).
  assert (H2 : is_Exception KeyboardInterrupt = false) by reflexivity.
  split; [exact H1|]. split; [exact H2|].
  exact (interrupt_leaves_process_query Demo.world "interrupt" 10 "en"
           default_content_key default_meta_keys
           default_embedding_similarity_function None Demo.start
           KeyboardInterrupt H1 H2).
Defined.

(** The conversion fails exactly when some hit has no ['QID'], and then
    with [KeyError('QID')], whatever the other hits carry. *)
Lemma comprehension_to_document_untagged hits h :
  h ∈ hits -> metadata h.1 !! "QID" = None ->
  comprehension to_document hits = Raise (KeyError "QID").
Proof.
  intros Hin Hnone. induction hits as [|h' hits IH]; [by apply elem_of_nil in Hin|].
  simpl. unfold to_document at 1, getitem.
  destruct (metadata h'.1 !! "QID") as [qid|] eqn:Hqid; simpl; [|done].
  apply elem_of_cons in Hin as [->|Hin]; [congruence|].
  by rewrite (IH Hin).
Qed.

(** X2: the hits of a search are converted all or none.  If one hit has no
    ['QID'] in its metadata, the [KeyError] is caught and printed, none of
    the hits is kept, however many carry a ['QID'], and the fallback
    runs. *)
Theorem untagged_hit_discards_all_hits w q k lang ck mk sim kw st hits h :
  similarity_search_with_relevance_scores w (graph_store (self st)) q k
    = Ok hits ->
  h ∈ hits ->
  metadata h.1 !! "QID" = None ->
  primary_retrieval w q k st =
    (Ok [],
     add_print (KeyError "QID")
       (add_call (SimilaritySearch (graph_store (self st)) q k) st)) /\
  fallback_ran (emitted st (process_query w q k lang ck mk sim kw st).2)
    = true.
Proof.
  intros Hsearch Hin Hnone.
  assert (Hprimary : primary_result w (graph_store (self st)) q k
                     = Raise (KeyError "QID")).
  { unfold primary_result. rewrite Hsearch. simpl.
    by eapply comprehension_to_document_untagged. }
  split.
  - by rewrite primary_retrieval_run, Hprimary.
  - apply fallback_ran_iff. right. by exists (KeyError "QID").
Qed.

(** X3: [process_query] prints one thing at most: the exception its
    handler caught from the primary step.  When that step raises nothing,
    or raises what is no [Exception], nothing is printed, whatever happens
    later. *)
Theorem only_caught_exception_is_printed w q k lang ck mk sim kw st :
  printed st (process_query w q k lang ck mk sim kw st).2 =
    match primary_result w (graph_store (self st)) q k with
    | Ok _ => []
    | Raise e => if is_Exception e then [e] else []
    end.
Proof.
  unfold primary_result.
  run_cases; tidy; simpl; try congruence.
  all: apply printed_app; simpl; by rewrite ?app_nil_r.
Qed.

(** ** The primary path *)

(** X4: when the primary step yields documents, [content_key],
    [meta_keys], [embedding_similarity_function] and [wikidata_kwargs]
    play no part: any two choices of them give the same result, calls,
    log and output. *)
Theorem primary_path_ignores_fallback_parameters
    w q k lang ck mk sim kw ck' mk' sim' kw' st d ds :
  primary_result w (graph_store (self st)) q k = Ok (d :: ds) ->
  process_query w q k lang ck mk sim kw st =
    process_query w q k lang ck' mk' sim' kw' st.
Proof.
  intros Hprimary.
  rewrite (process_query_after_retrieve _ _ _ _ _ _ _ _ _ _ _
             (retrieve_primary w q k lang ck mk sim kw st _ Hprimary
                ltac:(done))).
  by rewrite (process_query_after_retrieve _ _ _ _ _ _ _ _ _ _ _
             (retrieve_primary w q k lang ck' mk' sim' kw' st _ Hprimary
                ltac:(done))).
Qed.

(** X5: every call of [process_query] starts with the similarity search,
    on the pipeline's vector store, with the query and [top_k] as given,
    and searches once; it fetches statements, runs the in-memory
    retriever, builds a prompt, asks the language model and builds
    answers at most once each. *)
Theorem one_search_one_generation w q k lang ck mk sim kw st :
  let evs := emitted st (process_query w q k lang ck mk sim kw st).2 in
  (exists rest,
     evs = SimilaritySearch (graph_store (self st)) q k :: rest /\
     count_kind KSearch rest = 0) /\
  count_kind KFetch evs <= 1 /\
  count_kind KRetrieve evs <= 1 /\
  count_kind KPrompt evs <= 1 /\
  count_kind KGenerate evs <= 1 /\
  count_kind KAnswer evs <= 1.
Proof.
  simpl. run_cases; list_calls.
  all: split; [eexists; split; [reflexivity|by vm_compute]|].
  all: repeat split; vm_compute; lia.
Qed.

Lemma untagged_hit_discards_all_hits_witness :
  similarity_search_with_relevance_scores Cases.mixed_hits
    (graph_store (init Cases.mixed_hits None None)) "Who is Douglas Adams?" 10
    = Ok [(Demo.adams, 0.75%float); (Demo.untagged, 0.5%float)] /\
  (Demo.untagged, 0.5%float)
    ∈ [(Demo.adams, 0.75%float); (Demo.untagged, 0.5%float)] /\
  metadata (Demo.untagged, 0.5%float).1 !! "QID" = None /\
  fallback_ran
    (emitted {| self := init Cases.mixed_hits None None; calls := [];
                log := []; stdout := [] |}
       (Cases.ask Cases.mixed_hits "Who is Douglas Adams?" 10 "en" None).2)
    = true.
Proof.
  assert (H2 : (Demo.untagged, 0.5%float)
               ∈ [(Demo.adams, 0.75%float); (Demo.untagged, 0.5%float)])
    by (apply list_elem_of_further, list_elem_of_here).
  assert (H3 : metadata (Demo.untagged, 0.5%float).1 !! "QID" = None)
    by (vm_compute; reflexivity).
  split; [reflexivity|]. split; [exact H2|]. split; [exact H3|].
  exact (proj2 (untagged_hit_discards_all_hits Cases.mixed_hits
                  "Who is Douglas Adams?" 10 "en" default_content_key
                  default_meta_keys default_embedding_similarity_function
                  None
                  {| self := init Cases.mixed_hits None None; calls := [];
                     log := []; stdout := [] |}
                  _ _ eq_refl H2 H3)).
Defined.

Lemma primary_path_ignores_fallback_parameters_witness :
  primary_result Demo.world (graph_store (self Demo.start))
    "Who is Douglas Adams?" 10 = Ok [Demo.adams_document] /\
  process_query Demo.world "Who is Douglas Adams?" 10 "en" None [] "cosine"
    None Demo.start =
  process_query Demo.world "Who is Douglas Adams?" 10 "en" (Some "statement")
    ["qid"] "dot_product" (Some ∅) Demo.start.
Proof.
  assert (H1 : primary_result Demo.world (graph_store (self Demo.start))
                 "Who is Douglas Adams?" 10 = Ok [Demo.adams_document])
    by (vm_compute; reflexivity).
  split; [exact H1|].
  exact (primary_path_ignores_fallback_parameters Demo.world
           "Who is Douglas Adams?" 10 "en" None [] "cosine" None
           (Some "statement") ["qid"] "dot_product" (Some ∅) Demo.start
           _ _ H1).
Defined.

(** ** Prompt, generation and answer: edge cases *)

(** X6: the language is looked up only after the retrieval.  For a
    language one of the two tables of prompts does not know,
    [process_query] raises [KeyError] of that language once the documents
    are retrieved, on whichever path, and calls neither the prompt builder
    nor the language model nor the answer builder. *)
Theorem unknown_language_raises_after_retrieval
    w q k lang ck mk sim kw st docs :
  let st1 := (retrieve w q k lang ck mk sim kw st).2 in
  let out := process_query w q k lang ck mk sim kw st in
  (retrieve w q k lang ck mk sim kw st).1 = Ok docs ->
  system_prompts w !! lang = None \/ user_prompt_builders w !! lang = None ->
  out.1 = Raise (KeyError lang) /\ emitted st1 out.2 = [].
Proof.
  intros st1 out Hdocs Hlang. subst st1 out.
  destruct (retrieve w q k lang ck mk sim kw st) as [r st1] eqn:Hretrieve.
  simpl in Hdocs. subst r.
  rewrite (process_query_after_retrieve _ _ _ _ _ _ _ _ _ _ _ Hretrieve).
  unfold answer, bind, lift, call, debug, getitem.
  simpl. rewrite for_each_add_log. simpl.
  destruct Hlang as [Hnone|Hnone].
  - rewrite Hnone. simpl. split; [done|apply drop_all].
  - destruct (system_prompts w !! lang); simpl; [rewrite Hnone; simpl|];
      (split; [done|apply drop_all]).
Qed.

Lemma unknown_language_raises_after_retrieval_witness :
  (retrieve Demo.world "Who is Douglas Adams?" 10 "fr" default_content_key
     default_meta_keys default_embedding_similarity_function None
     Demo.start).1 = Ok [Demo.adams_document] /\
  (system_prompts Demo.world !! "fr" = None \/
   user_prompt_builders Demo.world !! "fr" = None) /\
  (Demo.ask "Who is Douglas Adams?" 10 "fr").1 = Raise (KeyError "fr").
Proof.
  assert (H1 : (retrieve Demo.world "Who is Douglas Adams?" 10 "fr"
                  default_content_key default_meta_keys
                  default_embedding_similarity_function None
                  Demo.start).1 = Ok [Demo.adams_document])
    by (vm_compute; reflexivity).
  assert (H2 : system_prompts Demo.world !! "fr" = None \/
               user_prompt_builders Demo.world !! "fr" = None)
    by (left; vm_compute; reflexivity).
  split; [exact H1|]. split; [exact H2|].
  exact (proj1 (unknown_language_raises_after_retrieval Demo.world
                  "Who is Douglas Adams?" 10 "fr" default_content_key
                  default_meta_keys default_embedding_similarity_function
                  None Demo.start _ H1 H2)).
Defined.

(** X7: a language model that returns no reply makes [process_query]
    raise [IndexError]: the answer builder, given no reply, builds no
    answer, and line 221 takes the first of none.  The prompt builder, the
    model and the answer builder have all been called by then. *)
Theorem no_reply_raises_IndexError w q k lang ck mk sim kw st
    docs sp b prompt :
  let st1 := (retrieve w q k lang ck mk sim kw st).2 in
  let out := process_query w q k lang ck mk sim kw st in
  (retrieve w q k lang ck mk sim kw st).1 = Ok docs ->
  system_prompts w !! lang = Some sp ->
  user_prompt_builders w !! lang = Some b ->
  prompt_builder_run w b q docs = Ok prompt ->
  llm_run w [from_system sp; from_user prompt] = Ok [] ->
  answer_builder_contract w ->
  out.1 = Raise IndexError /\
  emitted st1 out.2 =
    [BuildPrompt b q docs;
     Generate [from_system sp; from_user prompt];
     BuildAnswer q [] [] docs].
Proof.
  intros st1 out Hdocs Hsp Hb Hprompt Hllm Hbuilder. subst st1 out.
  destruct (retrieve w q k lang ck mk sim kw st) as [r st1] eqn:Hretrieve.
  simpl in Hdocs. subst r.
  rewrite (process_query_after_retrieve _ _ _ _ _ _ _ _ _ _ _ Hretrieve).
  destruct (Hbuilder q [] docs) as (answers & Hrun & Hall).
  apply Forall2_nil_inv_l in Hall. subst answers. simpl in Hrun.
  unfold answer, bind, lift, call, debug, getitem.
  simpl. rewrite for_each_add_log. simpl.
  rewrite Hsp, Hb. simpl. rewrite Hprompt, Hllm. simpl. rewrite Hrun. simpl.
  split; [done|by list_calls].
Qed.

Lemma silent_model_answer_builder_contract :
  answer_builder_contract Cases.silent_model.
Proof.
  intros query replies docs. eexists. split; [reflexivity|].
  induction replies as [|r replies IH]; simpl; constructor; [done|apply IH].
Qed.

Lemma no_reply_raises_IndexError_witness :
  answer_builder_contract Cases.silent_model /\
  llm_run Cases.silent_model
    [from_system "Answer in English.";
     from_user "Question: Who is Douglas Adams?"] = Ok [] /\
  (Cases.ask Cases.silent_model "Who is Douglas Adams?" 10 "en" None).1
    = Raise IndexError.
Proof.
  split; [exact silent_model_answer_builder_contract|].
  split; [reflexivity|].
  refine (proj1 (no_reply_raises_IndexError Cases.silent_model
                   "Who is Douglas Adams?" 10 "en" default_content_key
                   default_meta_keys default_embedding_similarity_function
                   None _ [Demo.adams_document] "Answer in English."
                   {| template := "Question: " |}
                   "Question: Who is Douglas Adams?" _ _ _ _ _
                   silent_model_answer_builder_contract));
    vm_compute; reflexivity.
Defined.

(** X8: an answer that [process_query] returns is always the first of
    the answers built from the language model's replies to the system
    prompt of the language and the prompt rendered from the query and the
    retrieved documents: it never returns without having called the prompt
    builder, the model and the answer builder, once each and in that
    order. *)
Theorem returned_answer_origin w q k lang ck mk sim kw st a :
  let st1 := (retrieve w q k lang ck mk sim kw st).2 in
  let out := process_query w q k lang ck mk sim kw st in
  out.1 = Ok a ->
  exists docs sp b prompt replies answers,
    (retrieve w q k lang ck mk sim kw st).1 = Ok docs /\
    system_prompts w !! lang = Some sp /\
    user_prompt_builders w !! lang = Some b /\
    prompt_builder_run w b q docs = Ok prompt /\
    llm_run w [from_system sp; from_user prompt] = Ok replies /\
    answer_builder_run w q replies (map message_meta replies) docs
      = Ok answers /\
    first answers = Ok a /\
    emitted st1 out.2 =
      [BuildPrompt b q docs;
       Generate [from_system sp; from_user prompt];
       BuildAnswer q replies (map message_meta replies) docs].
Proof.
  intros st1 out. subst st1 out.
  unfold process_query at 1 2. unfold bind.
  destruct (retrieve w q k lang ck mk sim kw st) as [[docs|e] st1]; [|done].
  unfold answer, bind, lift, call, debug, getitem.
  simpl. rewrite for_each_add_log. simpl.
  destruct (system_prompts w !! lang) as [sp|]; simpl; [|done].
  destruct (user_prompt_builders w !! lang) as [b|]; simpl; [|done].
  destruct (prompt_builder_run w b q docs) as [prompt|] eqn:Hprompt;
    simpl; [|done].
  destruct (llm_run w _) as [replies|] eqn:Hllm; simpl; [|done].
  destruct (answer_builder_run w _ _ _ _) as [answers|] eqn:Hrun;
    simpl; [|done].
  intros Hfirst. exists docs, sp, b, prompt, replies, answers.
  repeat split; try done. by list_calls.
Qed.

Lemma returned_answer_origin_witness :
  exists a,
    (Demo.ask "Who is Douglas Adams?" 10 "en").1 = Ok a /\
    exists docs, (retrieve Demo.world "Who is Douglas Adams?" 10 "en"
                    default_content_key default_meta_keys
                    default_embedding_similarity_function None
                    Demo.start).1 = Ok docs.
Proof.
  eexists. split; [vm_compute; reflexivity|].
  destruct (returned_answer_origin Demo.world "Who is Douglas Adams?" 10 "en"
              default_content_key default_meta_keys
              default_embedding_similarity_function None Demo.start _
              ltac:(vm_compute; reflexivity))
    as (docs & _ & _ & _ & _ & _ & Hdocs & _).
  by exists docs.
Defined.

(** X9: once the documents are retrieved, the pipeline's logger is given
    the line "retriever results:" and then each retrieved document, once
    and in order, before anything else; every later record also goes to
    the pipeline's logger.  This holds whether or not the run then
    fails. *)
Theorem retrieved_documents_are_logged w q k lang ck mk sim kw st docs :
  let st1 := (retrieve w q k lang ck mk sim kw st).2 in
  let out := process_query w q k lang ck mk sim kw st in
  (retrieve w q k lang ck mk sim kw st).1 = Ok docs ->
  exists rest,
    logged st1 out.2 =
      (logger (self st), LogText "retriever results:")
        :: map (fun d => (logger (self st), LogDocument d)) docs ++ rest /\
    Forall (fun r => r.1 = logger (self st)) rest.
Proof.
  intros st1 out Hdocs. subst st1 out.
  pose proof (keeps_self_retrieve w q k lang ck mk sim kw st) as Hself.
  destruct (retrieve w q k lang ck mk sim kw st) as [r st1] eqn:Hretrieve.
  simpl in Hdocs, Hself. subst r. rewrite <- Hself.
  rewrite (process_query_after_retrieve _ _ _ _ _ _ _ _ _ _ _ Hretrieve).
  unfold answer, bind, lift, call, debug.
  simpl. rewrite for_each_add_log. simpl.
  repeat (match goal with
          | |- context [match ?x with _ => _ end] =>
              lazymatch x with
              | context [match _ with _ => _ end] => fail
              | _ => destruct x
              end
          end; simpl).
  all: eexists; split;
    [apply logged_app; simpl; rewrite <- ?app_assoc; simpl;
     rewrite map_map; simpl; try reflexivity;
     by rewrite app_nil_r
    |repeat constructor].
Qed.

Lemma retrieved_documents_are_logged_witness :
  (retrieve Demo.world "Who is Albert Einstein?" 1 "fr" default_content_key
     default_meta_keys default_embedding_similarity_function None
     Demo.start).1
    = Ok [ {| content := Some "Albert Einstein: instance of: human";
              score := None; meta := ∅;
              embedding := Some [1%float; 0%float] |} ] /\
  exists rest,
    logged
      (retrieve Demo.world "Who is Albert Einstein?" 1 "fr"
         default_content_key default_meta_keys
         default_embedding_similarity_function None Demo.start).2
      (Demo.ask "Who is Albert Einstein?" 1 "fr").2 =
      (logger (self Demo.start), LogText "retriever results:")
        :: map (fun d => (logger (self Demo.start), LogDocument d))
             [ {| content := Some "Albert Einstein: instance of: human";
                  score := None; meta := ∅;
                  embedding := Some [1%float; 0%float] |} ] ++ rest /\
    Forall (fun r => r.1 = logger (self Demo.start)) rest.
Proof.
  split; [vm_compute; reflexivity|].
  apply (retrieved_documents_are_logged Demo.world "Who is Albert Einstein?"
           1 "fr" default_content_key default_meta_keys
           default_embedding_similarity_function None Demo.start).
  vm_compute; reflexivity.
Defined.

(** ** The fallback path: arguments and failures *)

(** X10: [wikidata_kwargs] is passed to the statement fetcher beside
    [lang] and [serapi_api_key]; a caller's dict that has one of these two
    keys makes that call a [TypeError].  So, when the fallback runs with
    such a dict and the query is embedded, [process_query] raises
    [TypeError] and the statement fetcher is never called. *)
Theorem repeated_keyword_raises_TypeError w q k lang ck mk sim m st
    key qd qds :
  let out := process_query w q k lang ck mk sim (Some m) st in
  fallback_ran (emitted st out.2) = true ->
  key = "lang" \/ key = "serapi_api_key" ->
  is_Some (m !! key) ->
  embedder_run w (embedder (self st)) [Document_of_content q]
    = Ok (qd :: qds) ->
  (exists msg, out.1 = Raise (TypeError msg)) /\
  emitted st out.2 =
    [SimilaritySearch (graph_store (self st)) q k;
     Embed (embedder (self st)) [Document_of_content q]].
Proof.
  simpl. intros Hran Hkey Hsome Hemb.
  assert (Hclash : filter (fun k => bool_decide (is_Some (m !! k)))
                     ["question"; "lang"; "serapi_api_key"] <> []).
  { apply clash_found with (key := key); [|done].
    destruct Hkey as [->| ->]; set_solver. }
  revert Hran. run_cases; list_calls; tidy; try done; intros _.
  all: split; [by eexists|done].
Qed.

Lemma repeated_keyword_raises_TypeError_witness :
  fallback_ran
    (emitted Demo.start
       (process_query Demo.world "Who is Albert Einstein?" 10 "en" None []
          "cosine" (Some {[ "lang" := PyStr "de" ]}) Demo.start).2) = true /\
  is_Some (({[ "lang" := PyStr "de" ]} : gmap string pyvalue) !! "lang") /\
  exists msg,
    (process_query Demo.world "Who is Albert Einstein?" 10 "en" None []
       "cosine" (Some {[ "lang" := PyStr "de" ]}) Demo.start).1
      = Raise (TypeError msg).
Proof.
  assert (H1 : fallback_ran
                 (emitted Demo.start
                    (process_query Demo.world "Who is Albert Einstein?" 10
                       "en" None [] "cosine"
                       (Some {[ "lang" := PyStr "de" ]}) Demo.start).2) = true)
    by (vm_compute; reflexivity).
  assert (H2 : is_Some (({[ "lang" := PyStr "de" ]} : gmap string pyvalue)
                          !! "lang")) by (eexists; vm_compute; reflexivity).
  split; [exact H1|]. split; [exact H2|].
  refine (proj1 (repeated_keyword_raises_TypeError Demo.world
                   "Who is Albert Einstein?" 10 "en" None [] "cosine"
                   {[ "lang" := PyStr "de" ]} Demo.start "lang" _ _
                   H1 (or_introl eq_refl) H2 _)).
  vm_compute; reflexivity.
Defined.

(** X11: whenever the statement fetcher is called, it is given the query
    and the language of the call, the module's [SERAPI_API_KEY], and
    either the caller's [wikidata_kwargs] as they are, no default being
    added to them, or, when the caller gave none, the defaults: a timeout
    of 10, as many cores as the machine has, no verbosity and
    [return_list] set. *)
Theorem fetcher_arguments w q k lang ck mk sim kw st q' lang' key' kwargs' :
  FetchStatements q' lang' key' kwargs'
    ∈ emitted st (process_query w q k lang ck mk sim kw st).2 ->
  q' = q /\ lang' = lang /\ key' = SERAPI_API_KEY (environment w) /\
  kwargs' = effective_kwargs w kw /\
  (kw = None ->
     kwargs' !! "timeout" = Some (PyInt 10) /\
     kwargs' !! "n_cores" = Some (PyInt (cpu_count w)) /\
     kwargs' !! "verbose" = Some (PyBool false) /\
     kwargs' !! "return_list" = Some (PyBool true)).
Proof.
  assert (Hdefaults :
            default_wikidata_kwargs w !! "timeout" = Some (PyInt 10) /\
            default_wikidata_kwargs w !! "n_cores"
              = Some (PyInt (cpu_count w)) /\
            default_wikidata_kwargs w !! "verbose" = Some (PyBool false) /\
            default_wikidata_kwargs w !! "return_list" = Some (PyBool true)).
  { unfold default_wikidata_kwargs. repeat split; by vm_compute. }
  run_cases; list_calls; intros Hin; split_membership.
  all: destruct kw; simpl; repeat split; try done; apply Hdefaults.
Qed.

Lemma fetcher_arguments_witness :
  FetchStatements "Who is Albert Einstein?" "en" (Some "key")
    (default_wikidata_kwargs Demo.world)
    ∈ emitted Demo.start (Demo.ask "Who is Albert Einstein?" 10 "en").2 /\
  default_wikidata_kwargs Demo.world !! "n_cores" = Some (PyInt 4).
Proof.
  assert (H1 : FetchStatements "Who is Albert Einstein?" "en" (Some "key")
                 (default_wikidata_kwargs Demo.world)
               ∈ emitted Demo.start
                   (Demo.ask "Who is Albert Einstein?" 10 "en").2).
  { apply list_elem_of_lookup. exists 2%nat. vm_compute. reflexivity. }
  split; [exact H1|].
  destruct (fetcher_arguments Demo.world "Who is Albert Einstein?" 10 "en"
              default_content_key default_meta_keys
              default_embedding_similarity_function None Demo.start
              _ _ _ _ H1) as (_ & _ & _ & _ & Hd).
  exact (proj1 (proj2 (Hd eq_refl))).
Defined.

(** X12: on the fallback path an embedder that returns no document for
    the query makes [process_query] raise [IndexError] at line 132, before
    the statement fetcher is called. *)
Theorem empty_query_embedding_raises_IndexError w q k lang ck mk sim kw st :
  let out := process_query w q k lang ck mk sim kw st in
  fallback_ran (emitted st out.2) = true ->
  embedder_run w (embedder (self st)) [Document_of_content q] = Ok [] ->
  out.1 = Raise IndexError /\
  emitted st out.2 =
    [SimilaritySearch (graph_store (self st)) q k;
     Embed (embedder (self st)) [Document_of_content q]].
Proof.
  simpl. intros Hran Hemb. revert Hran.
  run_cases; list_calls; tidy; try done; try congruence.
  all: simpl in *; simplify_eq; done.
Qed.

Lemma empty_query_embedding_raises_IndexError_witness :
  fallback_ran
    (emitted {| self := init Cases.empty_embedder None None; calls := [];
                log := []; stdout := [] |}
       (Cases.ask Cases.empty_embedder "Who is Albert Einstein?" 10 "en"
          None).2) = true /\
  (Cases.ask Cases.empty_embedder "Who is Albert Einstein?" 10 "en" None).1
    = Raise IndexError.
Proof.
  split; [vm_compute; reflexivity|].
  refine (proj1 (empty_query_embedding_raises_IndexError Cases.empty_embedder
                   "Who is Albert Einstein?" 10 "en" default_content_key
                   default_meta_keys default_embedding_similarity_function
                   None _ _ _)); vm_compute; reflexivity.
Defined.

(** X13: a query document that comes back from the embedder without an
    embedding is noticed late.  The statements are fetched, turned into
    documents and embedded first; only then does line 161 raise
    [TypeError], and the retriever is never run. *)
Theorem missing_query_embedding_fails_late w q k lang ck mk sim kw st
    qd qds statements docs embedded :
  let out := process_query w q k lang ck mk sim kw st in
  let emb := embedder (self st) in
  let key := SERAPI_API_KEY (environment w) in
  fallback_ran (emitted st out.2) = true ->
  embedder_run w emb [Document_of_content q] = Ok (qd :: qds) ->
  embedding qd = None ->
  (forall name, name ∈ ["question"; "lang"; "serapi_api_key"] ->
                effective_kwargs w kw !! name = None) ->
  get_wikidata_statements_from_query w q lang key (effective_kwargs w kw)
    = Ok statements ->
  documents_from_dicts w statements ck mk = Ok docs ->
  embedder_run w emb docs = Ok embedded ->
  out.1 = Raise (TypeError "'NoneType' object is not iterable") /\
  emitted st out.2 =
    [SimilaritySearch (graph_store (self st)) q k;
     Embed emb [Document_of_content q];
     FetchStatements q lang key (effective_kwargs w kw);
     Embed emb docs].
Proof.
  simpl. intros Hran Hemb Hnone Hclash Hfetch Hdocs Hembedded.
  apply no_clash in Hclash.
  assert (Hkw : default (default_wikidata_kwargs w) kw = effective_kwargs w kw)
    by by destruct kw.
  revert Hran. unfold_pipeline. simpl. rewrite Hkw.
  repeat (run_step; simpl); list_calls; tidy; try done; try congruence.
  all: simpl in *; simplify_eq.
  all: repeat match goal with
         | Hn : embedding ?d = None, H : to_list (embedding ?d) = _ |- _ =>
             rewrite Hn in H; simpl in H
         end; simplify_eq.
  all: try done; intros _; split; [done | repeat f_equal; congruence].
Qed.

Lemma missing_query_embedding_fails_late_witness :
  fallback_ran
    (emitted {| self := init Cases.idle_embedder None None; calls := [];
                log := []; stdout := [] |}
       (Cases.ask Cases.idle_embedder "Who is Albert Einstein?" 10 "en"
          None).2) = true /\
  embedding (Document_of_content "Who is Albert Einstein?") = None /\
  (Cases.ask Cases.idle_embedder "Who is Albert Einstein?" 10 "en" None).1
    = Raise (TypeError "'NoneType' object is not iterable").
Proof.
  split; [vm_compute; reflexivity|]. split; [reflexivity|].
  edestruct (missing_query_embedding_fails_late Cases.idle_embedder
               "Who is Albert Einstein?" 10 "en" default_content_key
               default_meta_keys default_embedding_similarity_function None
               {| self := init Cases.idle_embedder None None; calls := [];
                  log := []; stdout := [] |}
               (Document_of_content "Who is Albert Einstein?") [])
    as [Hraise _]; [..|exact Hraise].
  - vm_compute; reflexivity.
  - reflexivity.
  - reflexivity.
  - exact (default_wikidata_kwargs_no_clash Cases.idle_embedder).
  - reflexivity.
  - reflexivity.
  - reflexivity.
Defined.

(** X14: unlike an error of the similarity search, an error of the
    statement fetcher is not caught, [Exception] or not: [process_query]
    raises it, and neither the retriever nor the prompt builder nor the
    language model is called. *)
Theorem fetcher_error_is_not_caught w q k lang ck mk sim kw st qd qds e :
  let out := process_query w q k lang ck mk sim kw st in
  let key := SERAPI_API_KEY (environment w) in
  fallback_ran (emitted st out.2) = true ->
  embedder_run w (embedder (self st)) [Document_of_content q]
    = Ok (qd :: qds) ->
  (forall name, name ∈ ["question"; "lang"; "serapi_api_key"] ->
                effective_kwargs w kw !! name = None) ->
  get_wikidata_statements_from_query w q lang key (effective_kwargs w kw)
    = Raise e ->
  out.1 = Raise e /\
  emitted st out.2 =
    [SimilaritySearch (graph_store (self st)) q k;
     Embed (embedder (self st)) [Document_of_content q];
     FetchStatements q lang key (effective_kwargs w kw)].
Proof.
  simpl. intros Hran Hemb Hclash Hfetch.
  apply no_clash in Hclash.
  assert (Hkw : default (default_wikidata_kwargs w) kw = effective_kwargs w kw)
    by by destruct kw.
  revert Hran. unfold_pipeline. simpl. rewrite Hkw.
  repeat (run_step; simpl); list_calls; tidy; try done; try congruence.
  all: simpl in *; simplify_eq; done.
Qed.

Lemma fetcher_error_is_not_caught_witness :
  fallback_ran
    (emitted {| self := init Cases.unreachable_fetcher None None;
                calls := []; log := []; stdout := [] |}
       (Cases.ask Cases.unreachable_fetcher "Who is Albert Einstein?" 10
          "en" None).2) = true /\
  (Cases.ask Cases.unreachable_fetcher "Who is Albert Einstein?" 10 "en"
     None).1 = Raise (ServiceError "search API unreachable").
Proof.
  split; [vm_compute; reflexivity|].
  edestruct (fetcher_error_is_not_caught Cases.unreachable_fetcher
               "Who is Albert Einstein?" 10 "en" default_content_key
               default_meta_keys default_embedding_similarity_function None
               {| self := init Cases.unreachable_fetcher None None;
                  calls := []; log := []; stdout := [] |})
    as [Hraise _]; [..|exact Hraise].
  - vm_compute; reflexivity.
  - reflexivity.
  - exact (default_wikidata_kwargs_no_clash Cases.unreachable_fetcher).
  - reflexivity.
Defined.

(** ** Constructor and method together *)

(** X15: on a pipeline as [__init__] leaves it, every embedding that
    [process_query] asks for is done by the embedder of the model and the
    device given to the constructor, or, when none were given, of the
    model named by [EMBEDDING_MODEL] and the device ['cpu']; and every
    search goes to the collection ['wikidata'] of the vector store, with
    the token, the endpoint and the keyspace of the environment. *)
Theorem constructed_pipeline_uses_its_configuration
    w model dev st0 q k lang ck mk sim kw :
  let st := (__init__ w model dev st0).2 in
  let evs := emitted st (process_query w q k lang ck mk sim kw st).2 in
  (forall e docs, Embed e docs ∈ evs ->
     embedder_model e = default (EMBEDDING_MODEL (environment w)) model /\
     embedder_device e = default "cpu" dev) /\
  (forall store q' k', SimilaritySearch store q' k' ∈ evs ->
     collection_name store = "wikidata" /\
     token store = ASTRA_DB_APPLICATION_TOKEN (environment w) /\
     api_endpoint store = ASTRA_DB_API_ENDPOINT (environment w) /\
     namespace store = ASTRA_DB_KEYSPACE (environment w)).
Proof.
  intros st evs. subst st evs. rewrite init_run. simpl.
  set (st := {| self := init w model dev; calls := calls st0;
                log := log st0; stdout := stdout st0 |}).
  assert (Hself : self st = init w model dev) by done.
  clearbody st.
  assert (Hcalls :
    (forall e docs,
       Embed e docs ∈ emitted st (process_query w q k lang ck mk sim kw st).2 ->
       e = embedder (self st)) /\
    (forall store q' k',
       SimilaritySearch store q' k'
         ∈ emitted st (process_query w q k lang ck mk sim kw st).2 ->
       store = graph_store (self st))).
  { run_cases; list_calls; split; intros; by split_membership. }
  destruct Hcalls as [Hembed Hsearch]. split.
  - intros e docs Hin. rewrite (Hembed _ _ Hin), Hself. done.
  - intros store q' k' Hin. rewrite (Hsearch _ _ _ Hin), Hself. done.
Qed.

(** ** An empty set of documents *)

(** X16: the retrieval can end with no document at all, and then
    [process_query] goes on to the prompt with none.  This happens only
    through the fallback: the primary step yielded nothing and the
    fallback's retriever, run once, returned the empty list. *)
Theorem no_documents_only_from_fallback w q k lang ck mk sim kw st :
  let st1 := (retrieve w q k lang ck mk sim kw st).2 in
  (retrieve w q k lang ck mk sim kw st).1 = Ok [] ->
  process_query w q k lang ck mk sim kw st = answer w q lang [] st1 /\
  fallback_ran (emitted st st1) = true /\
  exists r qe,
    Retrieve r qe k ∈ emitted st st1 /\ retriever_run w r qe k = Ok [].
Proof.
  intros st1 Hdocs. subst st1. split.
  { apply process_query_after_retrieve.
    destruct (retrieve w q k lang ck mk sim kw st) as [r st1].
    simpl in *. by subst r. }
  revert Hdocs. run_cases; list_calls; tidy; try done; intros ?; simplify_eq.
  all: split; [done|]; do 2 eexists; split; [|eassumption]; set_solver.
Qed.

Lemma no_documents_only_from_fallback_witness :
  (retrieve Cases.no_statements "Who is Albert Einstein?" 10 "en"
     default_content_key default_meta_keys
     default_embedding_similarity_function None
     {| self := init Cases.no_statements None None; calls := []; log := [];
        stdout := [] |}).1 = Ok [] /\
  fallback_ran
    (emitted
       {| self := init Cases.no_statements None None; calls := []; log := [];
          stdout := [] |}
       (retrieve Cases.no_statements "Who is Albert Einstein?" 10 "en"
          default_content_key default_meta_keys
          default_embedding_similarity_function None
          {| self := init Cases.no_statements None None; calls := [];
             log := []; stdout := [] |}).2) = true.
Proof.
  assert (H1 : (retrieve Cases.no_statements "Who is Albert Einstein?" 10
                  "en" default_content_key default_meta_keys
                  default_embedding_similarity_function None
                  {| self := init Cases.no_statements None None;
                     calls := []; log := []; stdout := [] |}).1 = Ok [])
    by (vm_compute; reflexivity).
  split; [exact H1|].
  exact (proj1 (proj2 (no_documents_only_from_fallback Cases.no_statements
                         "Who is Albert Einstein?" 10 "en"
                         default_content_key default_meta_keys
                         default_embedding_similarity_function None _ H1))).
Defined.
